(** * pyOutlook: the Message entity and its API call gateway

    A shallow embedding of [pyOutlook/core/message.py]: the factory that
    builds a [Message] from the JSON returned by the Outlook REST API, the
    gateway [_make_api_call] and the action methods built on it.

    Python values are a small universe [pyval]; exceptions are a datatype
    [exn]; a method of [Message] is a computation that reads [self], may
    replace it, emits the events an observer of the process would see
    (log records, HTTP requests, warnings) and ends normally or by raising. *)

From Stdlib Require Import ZArith Ascii String.
From stdpp Require Import gmap strings list fin_maps.

Set Default Proof Using "Type".
Local Open Scope Z_scope.

(** ** Python values *)

(** The values [json.loads] can produce.  A float is carried as the bit
    pattern of its IEEE-754 double: the client stores and forwards such
    values and never computes with them. *)
#[warnings="-register-all"]
Inductive pyval : Type :=
  | PyNone
  | PyBool (b : bool)
  | PyInt (z : Z)
  | PyFloat (bits : Z)
  | PyStr (s : string)
  | PyList (l : list pyval)
  | PyDict (d : gmap string pyval).

(** ** Exceptions and results *)

Inductive exn : Type :=
  | AuthError (msg : string)        (* pyOutlook.internal.errors.AuthError *)
  | MiscError (msg : string)        (* pyOutlook.internal.errors.MiscError *)
  | KeyError (key : string)
  | IndexError
  | TypeError
  | AttributeError
  | ValueError
  | JSONDecodeError                 (* raised by [Response.json()] *)
  | RequestException.               (* raised by the [requests] transport *)

Inductive outcome (A : Type) : Type :=
  | Ok (a : A)
  | Raise (e : exn).
Arguments Ok {A} a.
Arguments Raise {A} e.

#[global] Instance outcome_ret : MRet outcome := λ A a, Ok a.
#[global] Instance outcome_bind : MBind outcome := λ A B k c,
  match c with
  | Ok a => k a
  | Raise e => Raise e
  end.

(** ** String literals *)

(** The double quote, and a text between double quotes. *)
Definition dq : string := String "034"%char EmptyString.
Definition quoted (s : string) : string := dq +:+ s +:+ dq.

(** ** Primitive operations of Python on [pyval] *)

(** [v[k]] for a string key [k]. *)
Definition py_getitem (v : pyval) (k : string) : outcome pyval :=
  match v with
  | PyDict d =>
      match d !! k with
      | Some x => Ok x
      | None => Raise (KeyError k)
      end
  | _ => Raise TypeError
  end.

(** [v.get(k, default)]: only a dict has the method. *)
Definition py_get (v : pyval) (k : string) (default : pyval) : outcome pyval :=
  match v with
  | PyDict d =>
      match d !! k with
      | Some x => Ok x
      | None => Ok default
      end
  | _ => Raise AttributeError
  end.

(** The one-character strings of a string. *)
Fixpoint py_chars (s : string) : list pyval :=
  match s with
  | EmptyString => []
  | String c rest => PyStr (String c EmptyString) :: py_chars rest
  end.

(** [iter(v)], run to exhaustion.  A list yields its elements in order; a
    dict yields its keys and a string its characters (both are strings,
    here in the order of the map and byte by byte); the other values are
    not iterable. *)
Definition py_iter (v : pyval) : outcome (list pyval) :=
  match v with
  | PyList l => Ok l
  | PyDict d => Ok (PyStr <$> (map_to_list d).*1)
  | PyStr s => Ok (py_chars s)
  | _ => Raise TypeError
  end.

(** [s + v] where [s] is a string. *)
Definition py_str_add (s : string) (v : pyval) : outcome string :=
  match v with
  | PyStr t => Ok (s +:+ t)
  | _ => Raise TypeError
  end.

(** ** The account and the message *)

(** The account is an external collaborator; the message reads its bearer
    token and nothing else. *)
Record OutlookAccount : Type := { access_token : string }.

(** [Message.__init__] stores its arguments as they come. *)
Record Message : Type := {
  account : OutlookAccount;
  message_id : pyval;
  body : pyval;
  subject : pyval;
  sender_email : pyval;
  sender_name : pyval;
  to_recipients : pyval;
  is_read : pyval                   (* the private field [__is_read] *)
}.

(** ** The factory *)

Definition _json_to_message (acct : OutlookAccount) (api_json : pyval)
  : outcome Message :=
  uid ← py_getitem api_json "Id";
  subject ← py_get api_json "Subject" (PyStr "");
  sender0 ← py_get api_json "Sender" (PyDict ∅);
  sender ← py_get sender0 "EmailAddress" (PyDict ∅);
  sender_email ← py_get sender "Address" (PyStr "");
  sender_name ← py_get sender "Name" (PyStr "");
  body0 ← py_get api_json "Body" (PyDict ∅);
  body ← py_get body0 "Content" (PyStr "");
  to_recipients ← py_get api_json "ToRecipients" (PyList []);
  is_read ← py_getitem api_json "IsRead";
  mret {| account := acct; message_id := uid; body := body;
          subject := subject; sender_email := sender_email;
          sender_name := sender_name; to_recipients := to_recipients;
          is_read := is_read |}.

Definition _json_to_messages (acct : OutlookAccount) (json_value : pyval)
  : outcome (list Message) :=
  value ← py_getitem json_value "value";
  messages ← py_iter value;
  mapM (_json_to_message acct) messages.

(** The shape of the optional members that the factory relies on: a
    [Sender], its [EmailAddress] and a [Body], where present, are objects. *)
Definition is_dict (v : pyval) : Prop :=
  match v with PyDict _ => True | _ => False end.

Definition optional_dict (d : gmap string pyval) (k : string) : Prop :=
  match d !! k with
  | Some v => is_dict v
  | None => True
  end.

Definition nested_members_are_objects (d : gmap string pyval) : Prop :=
  optional_dict d "Body" ∧
  match d !! "Sender" with
  | Some (PyDict s) => optional_dict s "EmailAddress"
  | Some _ => False
  | None => True
  end.

(** Member [k2] of member [k1], when both are there. *)
Definition member2 (d : gmap string pyval) (k1 k2 : string) : option pyval :=
  match d !! k1 with
  | Some (PyDict d1) => d1 !! k2
  | _ => None
  end.

Definition member3 (d : gmap string pyval) (k1 k2 k3 : string) : option pyval :=
  match d !! k1 with
  | Some (PyDict d1) => member2 d1 k2 k3
  | _ => None
  end.

(** ** The constructor and the magic methods *)

(** The names of the positional parameters of [Message.__init__]. *)
Definition init_parameters : list string :=
  ["self"; "account"; "message_id"; "body"; "subject"; "sender_email";
   "sender_name"; "to_recipients"].

(** Whether a keyword of the call names a positional parameter. *)
Definition names_parameter (kwargs : gmap string pyval) : bool :=
  existsb (λ k, match kwargs !! k with Some _ => true | None => false end)
    init_parameters.

(** [Message.__init__], called with its seven positional arguments and
    the keywords [kwargs].  Python binds the arguments before the body
    runs: a keyword that names a positional parameter gives that
    parameter a second value, which is a [TypeError].  The body stores the
    positional arguments as they come and takes the read flag from the
    keywords, under [is_read]. *)
Definition __init__ (acct : OutlookAccount)
    (uid body_ subject_ sender_email_ sender_name_ to_recipients_ : pyval)
    (kwargs : gmap string pyval) : outcome Message :=
  if names_parameter kwargs then Raise TypeError else
  flag ← py_getitem (PyDict kwargs) "is_read";
  mret {| account := acct; message_id := uid; body := body_;
          subject := subject_; sender_email := sender_email_;
          sender_name := sender_name_; to_recipients := to_recipients_;
          is_read := flag |}.

(** [Message.__str__] returns the subject, whatever it is. *)
Definition __str__ (self : Message) : pyval := subject self.

(** [str(self)]: Python calls [__str__] and accepts a string only. *)
Definition py_str_of (self : Message) : outcome string :=
  match __str__ self with
  | PyStr s => Ok s
  | _ => Raise TypeError
  end.

(** [Message.__repr__] returns [str(self)]. *)
Definition __repr__ (self : Message) : outcome string := py_str_of self.

(** The getter of the property [is_read]. *)
Definition is_read_getter (self : Message) : pyval := is_read self.

Definition is_str (v : pyval) : Prop :=
  match v with PyStr _ => True | _ => False end.

(** The members the factory reads. *)
Definition factory_keys : list string :=
  ["Id"; "Subject"; "Sender"; "Body"; "ToRecipients"; "IsRead"].

(** ** [str.format] *)

(** [template.format(args...)] with positional arguments only, as every
    call in message.py has it.  The template is scanned as CPython scans
    it: literal text with the doubled-brace escapes, and replacement
    fields made of a name, a conversion and a format specification.  The
    first component of the name selects the argument: an empty one the
    next positional argument, a number that argument, and any other one a
    keyword, which raises [KeyError] since none is passed.  A string
    argument with nothing after the first component is copied.  Anything
    else (another kind of argument, an attribute or an index, a conversion,
    a specification) is Python's own formatting of the argument,
    [builtin_format], which receives the text of the field after the
    first component. *)

Inductive numbering : Type :=
  | NumUnset
  | NumAuto (next : nat)
  | NumManual.

Inductive fmt_mode : Type :=
  | InText
  | AfterOpen                                (* a left brace was read *)
  | AfterClose                               (* a right brace was read *)
  | InName (name : string)                   (* first component of the name *)
  | InPath (name rest : string)              (* attributes and indices *)
  | InIndex (name rest : string)             (* between square brackets *)
  | InConv (name rest : string)              (* an exclamation mark was read *)
  | AfterConv (name rest : string)
  | InSpec (name rest : string) (depth : nat).

Definition is_digit (c : ascii) : bool :=
  (48 <=? nat_of_ascii c)%nat && (nat_of_ascii c <=? 57)%nat.

Fixpoint parse_digits (s : string) (acc : nat) : option nat :=
  match s with
  | EmptyString => Some acc
  | String c rest =>
      if is_digit c
      then parse_digits rest (10 * acc + (nat_of_ascii c - 48))%nat
      else None
  end.

Definition parse_index (name : string) : option nat :=
  match name with
  | EmptyString => None
  | _ => parse_digits name 0%nat
  end.

Definition positional (args : list pyval) (i : nat) : outcome pyval :=
  match args !! i with
  | Some v => Ok v
  | None => Raise IndexError
  end.

Definition resolve_field (name : string) (num : numbering) (args : list pyval)
  : outcome (pyval * numbering) :=
  match name with
  | EmptyString =>
      match num with
      | NumManual => Raise ValueError
      | NumUnset => v ← positional args 0%nat; mret (v, NumAuto 1)
      | NumAuto n => v ← positional args n; mret (v, NumAuto (S n))
      end
  | _ =>
      match parse_index name with
      | Some i =>
          match num with
          | NumAuto _ => Raise ValueError
          | _ => v ← positional args i; mret (v, NumManual)
          end
      | None => Raise (KeyError name)
      end
  end.

Definition render_field (builtin_format : pyval → string → outcome string)
    (v : pyval) (rest : string) : outcome string :=
  match v, rest with
  | PyStr s, EmptyString => Ok s
  | _, _ => builtin_format v rest
  end.

Definition snoc (s : string) (c : ascii) : string := s +:+ String c EmptyString.

Fixpoint format_from (builtin_format : pyval → string → outcome string)
    (args : list pyval) (s : string) (md : fmt_mode) (num : numbering)
  : outcome string :=
  match s with
  | EmptyString =>
      match md with
      | InText => Ok EmptyString
      | _ => Raise ValueError
      end
  | String c rest =>
      let continue (md' : fmt_mode) : outcome string :=
        format_from builtin_format args rest md' num in
      let copy : outcome string :=
        tail ← format_from builtin_format args rest InText num;
        mret (String c tail) in
      let emit_field (name after : string) : outcome string :=
        '(v, num') ← resolve_field name num args;
        text ← render_field builtin_format v after;
        tail ← format_from builtin_format args rest InText num';
        mret (text +:+ tail) in
      (* inside the name of a field, after [name] and [after] were read *)
      let in_name (name after : string) (first : bool) : outcome string :=
        if (c =? "}")%char then emit_field name after
        else if (c =? ":")%char then continue (InSpec name (snoc after c) 1)
        else if (c =? "!")%char then continue (InConv name (snoc after c))
        else if (c =? "[")%char then continue (InIndex name (snoc after c))
        else if (c =? "{")%char then Raise ValueError
        else if first && negb (c =? ".")%char then continue (InName (snoc name c))
        else continue (InPath name (snoc after c)) in
      match md with
      | InText =>
          if (c =? "{")%char then continue AfterOpen
          else if (c =? "}")%char then continue AfterClose
          else copy
      | AfterOpen =>
          if (c =? "{")%char then copy else in_name EmptyString EmptyString true
      | AfterClose =>
          if (c =? "}")%char then copy else Raise ValueError
      | InName name => in_name name EmptyString true
      | InPath name after => in_name name after false
      | InIndex name after =>
          if (c =? "]")%char then continue (InPath name (snoc after c))
          else continue (InIndex name (snoc after c))
      | InConv name after => continue (AfterConv name (snoc after c))
      | AfterConv name after =>
          if (c =? "}")%char then emit_field name after
          else if (c =? ":")%char then continue (InSpec name (snoc after c) 1)
          else Raise ValueError
      | InSpec name after depth =>
          if (c =? "{")%char then continue (InSpec name (snoc after c) (S depth))
          else if (c =? "}")%char then
            match depth with
            | 0%nat => Raise ValueError
            | 1%nat => emit_field name after
            | S d => continue (InSpec name (snoc after c) d)
            end
          else continue (InSpec name (snoc after c) depth)
      end
  end.

Definition py_format (builtin_format : pyval → string → outcome string)
    (template : string) (args : list pyval) : outcome string :=
  format_from builtin_format args template InText NumUnset.

(** ** The transport, the events and the method monad *)

(** Which function of [requests] carried a request. *)
Inductive verb : Type := HttpPost | HttpDelete | HttpPatch.

Record Request : Type := {
  req_verb : verb;
  req_url : string;
  req_headers : gmap string string;
  req_data : option string
}.

(** What the client reads of a [requests.Response]: [r.status_code],
    [r.content], and [r.json()], which raises when the body is not JSON. *)
Record Response : Type := {
  status_code : Z;
  content : string;
  json : outcome pyval
}.

Inductive log_level : Type := Debug | Error.

(** What a run lets the outside see: a record handed to the logger (its
    level; the text is not modelled), a request handed to the transport,
    and a warning handed to [warnings.warn], which under the default
    filters returns. *)
Inductive event : Type :=
  | EvLog (level : log_level)
  | EvHttp (req : Request)
  | EvWarn (category message : string).

(** A method runs on [self]; it ends with a result or an exception, the
    [self] it leaves behind and the events it emitted, in order. *)
Definition M (A : Type) : Type := Message → outcome A * Message * list event.

#[global] Instance M_ret : MRet M := λ A a self, (Ok a, self, []).
#[global] Instance M_bind : MBind M := λ A B k c self,
  match c self with
  | (Ok a, self1, evs1) =>
      match k a self1 with
      | (r, self2, evs2) => (r, self2, evs1 ++ evs2)
      end
  | (Raise e, self1, evs1) => (Raise e, self1, evs1)
  end.

Definition lift {A : Type} (r : outcome A) : M A := λ self, (r, self, []).
Definition raise {A : Type} (e : exn) : M A := lift (Raise e).
Definition emit (ev : event) : M unit := λ self, (Ok tt, self, [ev]).
Definition get_self : M Message := λ self, (Ok self, self, []).

(** [self.__is_read = v] *)
Definition store_is_read (v : pyval) : M unit := λ self,
  (Ok tt,
   {| account := account self; message_id := message_id self;
      body := body self; subject := subject self;
      sender_email := sender_email self; sender_name := sender_name self;
      to_recipients := to_recipients self; is_read := v |},
   []).

Definition result_of {A : Type} (x : outcome A * Message * list event) : outcome A := x.1.1.
Definition self_of {A : Type} (x : outcome A * Message * list event) : Message := x.1.2.
Definition events_of {A : Type} (x : outcome A * Message * list event) : list event := x.2.

(** The HTTP requests among the events. *)
Definition requests_of (evs : list event) : list Request :=
  omap (λ ev, match ev with EvHttp req => Some req | _ => None end) evs.

Definition api_root : string := "https://outlook.office.com/api/v2.0/me/messages/".

Definition default_headers (acct : OutlookAccount) : gmap string string :=
  {[ "Authorization" := "Bearer " +:+ access_token acct;
     "Content-Type" := "application/json" ]}.

(** [json.dumps(dict(IsRead=boolean))] for a boolean. *)
Definition json_dumps_IsRead (boolean : bool) : string :=
  "{" +:+ quoted "IsRead" +:+ ": " +:+ (if boolean then "true" else "false") +:+ "}".

Inductive action : Type :=
  | ActForward (to_recipients : pyval) (forward_comment : option string)
  | ActReply (reply_comment : string)
  | ActReplyAll (reply_comment : string)
  | ActDeleteMessage
  | ActDelete
  | ActMoveToInbox
  | ActMoveToDeleted
  | ActMoveToDrafts
  | ActMoveTo (folder_id : string)
  | ActCopyToInbox
  | ActCopyToDeleted
  | ActCopyToDrafts
  | ActCopyTo (folder_id : string)
  | ActSetIsRead (boolean : bool).

Definition is_setter (a : action) : bool :=
  match a with ActSetIsRead _ => true | _ => false end.

(** ** Reading a JSON text *)

(** The yardstick for a request body: a reader of the JSON texts that
    consist of one object with one member whose value is a string, a
    boolean or null (RFC 8259; the escape by code point, backslash-u, is
    not read and makes the reader give up). *)
Inductive jscalar : Type :=
  | JString (s : string)
  | JBoolean (b : bool)
  | JNull.

Definition dquote : ascii := "034"%char.
Definition backslash : ascii := "092"%char.

Definition is_json_ws (c : ascii) : bool :=
  (c =? " ")%char || (c =? "009")%char || (c =? "010")%char || (c =? "013")%char.

Fixpoint skip_ws (s : string) : string :=
  match s with
  | String c rest => if is_json_ws c then skip_ws rest else s
  | EmptyString => s
  end.

Definition unescape (c : ascii) : option ascii :=
  if (c =? dquote)%char then Some dquote
  else if (c =? backslash)%char then Some backslash
  else if (c =? "/")%char then Some "/"%char
  else if (c =? "b")%char then Some "008"%char
  else if (c =? "f")%char then Some "012"%char
  else if (c =? "n")%char then Some "010"%char
  else if (c =? "r")%char then Some "013"%char
  else if (c =? "t")%char then Some "009"%char
  else None.

(** The characters a JSON string holds as they are. *)
Definition plain_char (c : ascii) : bool :=
  negb (c =? dquote)%char && negb (c =? backslash)%char
  && (32 <=? nat_of_ascii c)%nat.

Fixpoint all_plain (s : string) : bool :=
  match s with
  | EmptyString => true
  | String c rest => plain_char c && all_plain rest
  end.

(** Reads a string from just after its opening quote: its value and the
    text after its closing quote. *)
Fixpoint scan_string (s : string) : option (string * string) :=
  match s with
  | EmptyString => None
  | String c rest =>
      if (c =? dquote)%char then Some (EmptyString, rest)
      else if (c =? backslash)%char then
        match rest with
        | String e rest' =>
            x ← unescape e;
            '(t, r) ← scan_string rest';
            Some (String x t, r)
        | EmptyString => None
        end
      else if plain_char c then
        '(t, r) ← scan_string rest;
        Some (String c t, r)
      else None
  end.

Fixpoint strip_prefix (p s : string) : option string :=
  match p, s with
  | EmptyString, _ => Some s
  | String a p', String b s' => if (a =? b)%char then strip_prefix p' s' else None
  | String _ _, EmptyString => None
  end.

Definition expect (c : ascii) (s : string) : option string :=
  strip_prefix (String c EmptyString) s.

Definition scan_scalar (s : string) : option (jscalar * string) :=
  match expect dquote s with
  | Some rest => '(t, r) ← scan_string rest; Some (JString t, r)
  | None =>
      match strip_prefix "true" s, strip_prefix "false" s, strip_prefix "null" s with
      | Some r, _, _ => Some (JBoolean true, r)
      | _, Some r, _ => Some (JBoolean false, r)
      | _, _, Some r => Some (JNull, r)
      | _, _, _ => None
      end
  end.

Definition json_single_member (text : string) : option (string * jscalar) :=
  s ← expect "{" (skip_ws text);
  s ← expect dquote (skip_ws s);
  '(k, s) ← scan_string s;
  s ← expect ":" (skip_ws s);
  '(v, s) ← scan_scalar (skip_ws s);
  s ← expect "}" (skip_ws s);
  match skip_ws s with
  | EmptyString => Some (k, v)
  | _ => None
  end.

(** A text is the JSON encoding of the object with the one member [k: v]. *)
Definition encodes_member (text k : string) (v : jscalar) : Prop :=
  json_single_member text = Some (k, v).

(** ** The recipient serialiser, from the specification *)

(** [s.split(',')] *)
Fixpoint split_commas (s : string) : list string :=
  match s with
  | EmptyString => [EmptyString]
  | String c rest =>
      match split_commas rest with
      | piece :: more =>
          if (c =? ",")%char then EmptyString :: piece :: more
          else String c piece :: more
      | [] => [String c EmptyString]
      end
  end.

Definition is_space (c : ascii) : bool :=
  (c =? " ")%char || ((9 <=? nat_of_ascii c)%nat && (nat_of_ascii c <=? 13)%nat).

Fixpoint lstrip (s : string) : string :=
  match s with
  | String c rest => if is_space c then lstrip rest else s
  | EmptyString => s
  end.

Fixpoint rstrip (s : string) : string :=
  match s with
  | String c rest =>
      match rstrip rest with
      | EmptyString => if is_space c then EmptyString else String c EmptyString
      | r => String c r
      end
  | EmptyString => s
  end.

Definition strip (s : string) : string := rstrip (lstrip s).

Fixpoint join (sep : string) (l : list string) : string :=
  match l with
  | [] => EmptyString
  | [x] => x
  | x :: rest => x +:+ sep +:+ join sep rest
  end.

Definition recipient_object (addr : string) : string :=
  "{" +:+ quoted "EmailAddress" +:+ ": {" +:+ quoted "Address" +:+ ": "
      +:+ quoted addr +:+ "}}".

(** The address of one recipient: an address, or a structured recipient
    as the factory stores it, [{EmailAddress: {Address: ...}}]. *)
Definition recipient_address (v : pyval) : outcome string :=
  match v with
  | PyStr addr => Ok addr
  | PyDict _ =>
      e ← py_getitem v "EmailAddress";
      a ← py_getitem e "Address";
      match a with
      | PyStr addr => Ok addr
      | _ => Raise TypeError
      end
  | _ => Raise TypeError
  end.

(** Modelled from the spec: [jsonify_recipients] of
    pyOutlook.internal.utils, which message.py imports and whose source is
    not at hand.  The specification has the recipients of a forward be
    non-empty, a string or a sequence of address descriptors, and has
    empty recipients raise the generic failure before any network call
    (its sections 4.3 and 8); [forward_message] refuses None only, so the
    refusal of the empty string and of the empty sequence is the
    serialiser's.  Otherwise a single string and a sequence of strings or
    of structured recipients both serialize to the members of a JSON array
    of [{EmailAddress: {Address: addr}}] objects, a comma-separated string
    being split and trimmed into its addresses.  The text of the failure is
    not specified. *)
Definition jsonify_recipients_spec (recipients : pyval) (r_type : string)
    (silent : bool) : outcome pyval :=
  match recipients with
  | PyStr EmptyString => Raise (MiscError "No recipients given.")
  | PyList [] => Raise (MiscError "No recipients given.")
  | PyStr s =>
      Ok (PyStr (join "," (recipient_object <$> (strip <$> split_commas s))))
  | PyList l =>
      addrs ← mapM recipient_address l;
      Ok (PyStr (join "," (recipient_object <$> addrs)))
  | _ => Raise TypeError
  end.

(** ** Sample data *)

Definition sample_account : OutlookAccount := {| access_token := "token" |}.

Definition sample_message : Message :=
  {| account := sample_account; message_id := PyStr "AAA";
     body := PyStr "<p>Hello</p>"; subject := PyStr "Greetings";
     sender_email := PyStr "ann@example.com"; sender_name := PyStr "Ann";
     to_recipients := PyList []; is_read := PyBool false |}.

(** Exactly the members the factory cannot do without. *)
Definition sample_json : gmap string pyval :=
  <["Id" := PyStr "AAA"]> (<["IsRead" := PyBool false]> ∅).

(** A [Sender] that is not an object. *)
Definition sample_json_null_sender : gmap string pyval :=
  <["Sender" := PyNone]> sample_json.

(** A stand-in for Python's formatting of values that are not strings.
    The samples carry string identifiers, so it is never reached; it
    raises, so that reaching it would show. *)
Definition no_format (v : pyval) (rest : string) : outcome string :=
  Raise ValueError.

(** Transports that answer every request alike. *)
Definition answer (status : Z) (body : string) (decoded : outcome pyval)
  : Request → outcome Response :=
  λ _, Ok {| status_code := status; content := body; json := decoded |}.

Definition transport_accepts : Request → outcome Response :=
  answer 202 "" (Raise JSONDecodeError).

(** A 401 with an empty body, which is not JSON. *)
Definition transport_401_empty : Request → outcome Response :=
  answer 401 "" (Raise JSONDecodeError).

(** A transport that cannot reach the server. *)
Definition transport_down : Request → outcome Response :=
  λ _, Raise RequestException.

(** A serialiser that returns None. *)
Definition serialiser_returns_none (recipients : pyval) (r_type : string)
    (silent : bool) : outcome pyval := Ok PyNone.

(** A message as the factory builds it from an object whose [Id] is a
    number. *)
Definition sample_message_numeric_id : Message :=
  {| account := sample_account; message_id := PyInt 7;
     body := PyStr EmptyString; subject := PyStr EmptyString;
     sender_email := PyStr EmptyString; sender_name := PyStr EmptyString;
     to_recipients := PyList []; is_read := PyBool false |}.

Section Client.
(** Python's formatting of a value under a conversion and specification. *)
Variable builtin_format : pyval → string → outcome string.
(** [pyOutlook.internal.utils.jsonify_recipients], which is not part of
    message.py. *)
Variable jsonify_recipients : pyval → string → bool → outcome pyval.
(** The [requests] library: the response to a request, or an exception. *)
Variable transport : Request → outcome Response.

Definition send (v : verb) (url : string) (headers : gmap string string)
    (data : option string) : M Response := λ self,
  let req := {| req_verb := v; req_url := url; req_headers := headers;
                req_data := data |} in
  (transport req, self, [EvHttp req]).

Definition _make_api_call (http_type endpoint : string)
    (extra_headers : option (gmap string string)) (data : option string)
  : M unit :=
  self ← get_self;
  let headers := default_headers (account self) in
  let headers :=
    match extra_headers with
    | Some extra => extra ∪ headers       (* headers.update(extra_headers) *)
    | None => headers
    end in
  emit (EvLog Debug);;
  r ← (if decide (http_type = "post") then send HttpPost endpoint headers data
       else if decide (http_type = "delete") then send HttpDelete endpoint headers None
       else if decide (http_type = "patch") then send HttpPatch endpoint headers data
       else
         (* [raise NotImplemented]: the constant is not an exception, and
            raising it is a TypeError *)
         raise TypeError);
  if decide (status_code r = 401) then
    lift (json r);;                       (* argument of the log record *)
    emit (EvLog Error);;
    raise (AuthError "Access Token Error, Received 401 from Outlook REST Endpoint")
  else if decide (status_code r > 299) then
    lift (json r);;
    emit (EvLog Error);;
    raise (MiscError "Unhandled error received from Outlook. Check logging output.")
  else
    emit (EvLog Debug).

Definition forward_message (to_recipients : pyval)
    (forward_comment : option string) : M unit :=
  let payload := "{" in
  let payload :=
    match forward_comment with
    | Some c => payload +:+ quoted "Comment" +:+ " : " +:+ dq +:+ c +:+ dq +:+ ","
    | None => payload
    end in
  match to_recipients with
  | PyNone =>
      raise (MiscError "To Recipients is not defined. Can not forward message.")
  | _ =>
      recipients ← lift (jsonify_recipients to_recipients "to" true);
      listed ← lift (py_str_add (quoted "ToRecipients" +:+ " : [") recipients);
      let payload := payload +:+ listed +:+ "]}" in
      self ← get_self;
      endpoint ← lift (py_format builtin_format (api_root +:+ "{}/forward")
                         [message_id self]);
      _make_api_call "post" endpoint None (Some payload)
  end.

Definition reply (reply_comment : string) : M unit :=
  let payload := "{ " +:+ quoted "Comment" +:+ ": " +:+ dq +:+ reply_comment +:+ dq +:+ "}" in
  self ← get_self;
  prefix ← lift (py_str_add api_root (message_id self));
  let endpoint := prefix +:+ "/reply" in
  _make_api_call "post" endpoint None (Some payload).

Definition reply_all (reply_comment : string) : M unit :=
  let payload := "{ " +:+ quoted "Comment" +:+ ": " +:+ dq +:+ reply_comment +:+ dq +:+ "}" in
  self ← get_self;
  endpoint ← lift (py_format builtin_format (api_root +:+ "{}/replyall")
                     [message_id self]);
  _make_api_call "post" endpoint None (Some payload).

Definition delete : M unit :=
  self ← get_self;
  endpoint ← lift (py_str_add api_root (message_id self));
  _make_api_call "delete" endpoint None None.

Definition delete_message : M unit :=
  emit (EvWarn "DeprecationWarning"
          "delete_message() is deprecated and will be removed in v1.0. Use delete() instead.");;
  delete.

Definition _move_to (destination : string) : M unit :=
  self ← get_self;
  prefix ← lift (py_str_add api_root (message_id self));
  let endpoint := prefix +:+ "/move" in
  let payload := "{ " +:+ quoted "DestinationId" +:+ ": " +:+ dq +:+ destination +:+ dq +:+ "}" in
  _make_api_call "post" endpoint None (Some payload).

Definition move_to_inbox : M unit := _move_to "Inbox".
Definition move_to_deleted : M unit := _move_to "DeletedItems".
Definition move_to_drafts : M unit := _move_to "Drafts".
Definition move_to (folder_id : string) : M unit := _move_to folder_id.

Definition _copy_to (destination : string) : M unit :=
  self ← get_self;
  let token := access_token (account self) in
  let headers : gmap string string :=
    {[ "Authorization" := "Bearer " +:+ token;
       "Content-Type" := "application/json" ]} in
  prefix ← lift (py_str_add api_root (message_id self));
  let endpoint := prefix +:+ "/copy" in
  payload ← lift (py_format builtin_format
                    ("{ " +:+ quoted "DestinationId" +:+ ": " +:+ quoted "{}" +:+ "}")
                    [PyStr destination]);
  _make_api_call "post" endpoint (Some headers) (Some payload).

Definition copy_to_inbox : M unit := _copy_to "Inbox".
Definition copy_to_deleted : M unit := _copy_to "DeletedItems".
Definition copy_to_drafts : M unit := _copy_to "Drafts".
Definition copy_to (folder_id : string) : M unit := _copy_to folder_id.

(** The setter of the property [is_read]. *)
Definition is_read_setter (boolean : bool) : M unit :=
  self ← get_self;
  endpoint ← lift (py_format builtin_format (api_root +:+ "{}") [message_id self]);
  let payload := json_dumps_IsRead boolean in
  _make_api_call "patch" endpoint None (Some payload);;
  store_is_read (PyBool boolean).

Definition run_action (a : action) : M unit :=
  match a with
  | ActForward r c => forward_message r c
  | ActReply c => reply c
  | ActReplyAll c => reply_all c
  | ActDeleteMessage => delete_message
  | ActDelete => delete
  | ActMoveToInbox => move_to_inbox
  | ActMoveToDeleted => move_to_deleted
  | ActMoveToDrafts => move_to_drafts
  | ActMoveTo d => move_to d
  | ActCopyToInbox => copy_to_inbox
  | ActCopyToDeleted => copy_to_deleted
  | ActCopyToDrafts => copy_to_drafts
  | ActCopyTo d => copy_to d
  | ActSetIsRead b => is_read_setter b
  end.

(** The run of the gateway from the request on, spelled out by cases on
    what the transport answers. *)
Definition after_response (req : Request) (self : Message)
  : outcome unit * Message * list event :=
  match transport req with
  | Raise e => (Raise e, self, [EvLog Debug; EvHttp req])
  | Ok r =>
      if decide (status_code r = 401) then
        match json r with
        | Ok _ =>
            (Raise (AuthError "Access Token Error, Received 401 from Outlook REST Endpoint"),
             self, [EvLog Debug; EvHttp req; EvLog Error])
        | Raise e => (Raise e, self, [EvLog Debug; EvHttp req])
        end
      else if decide (status_code r > 299) then
        match json r with
        | Ok _ =>
            (Raise (MiscError "Unhandled error received from Outlook. Check logging output."),
             self, [EvLog Debug; EvHttp req; EvLog Error])
        | Raise e => (Raise e, self, [EvLog Debug; EvHttp req])
        end
      else (Ok tt, self, [EvLog Debug; EvHttp req; EvLog Debug])
  end.

Definition merge_headers (self : Message) (extra : option (gmap string string))
  : gmap string string :=
  match extra with
  | Some e => e ∪ default_headers (account self)
  | None => default_headers (account self)
  end.

(** The bodies the actions send. *)
Definition comment_payload (comment : string) : string :=
  "{ " +:+ quoted "Comment" +:+ ": " +:+ dq +:+ comment +:+ dq +:+ "}".

Definition destination_payload (destination : string) : string :=
  "{ " +:+ quoted "DestinationId" +:+ ": " +:+ dq +:+ destination +:+ dq +:+ "}".

Definition forward_payload (forward_comment : option string) (listed : string)
  : string :=
  match forward_comment with
  | Some c => "{" +:+ quoted "Comment" +:+ " : " +:+ dq +:+ c +:+ dq +:+ ","
  | None => "{"
  end +:+ listed +:+ "]}".

(** A request under the default headers. *)
Definition request_of (v : verb) (self : Message) (url : string)
    (data : option string) : Request :=
  {| req_verb := v; req_url := url;
     req_headers := default_headers (account self); req_data := data |}.

(** The setter stores the new value once the gateway has returned. *)
Definition then_store (boolean : bool) (x : outcome unit * Message * list event)
  : outcome unit * Message * list event :=
  match x with
  | (Ok _, self, evs) =>
      (Ok tt,
       {| account := account self; message_id := message_id self;
          body := body self; subject := subject self;
          sender_email := sender_email self; sender_name := sender_name self;
          to_recipients := to_recipients self; is_read := PyBool boolean |},
       evs)
  | (Raise e, self, evs) => (Raise e, self, evs)
  end.

Definition is_warning (ev : event) : Prop :=
  match ev with EvWarn _ _ => True | _ => False end.

(** An action either raises before the gateway, having emitted warnings at
    most, or goes through the gateway with one request and ends as the
    gateway does. *)
Definition stops_early (x : outcome unit * Message * list event) : Prop :=
  ∃ e, result_of x = Raise e ∧ Forall is_warning (events_of x).

Definition goes_through (self : Message) (x : outcome unit * Message * list event)
  : Prop :=
  ∃ req pre, Forall is_warning pre
    ∧ events_of x = pre ++ events_of (after_response req self)
    ∧ result_of x = result_of (after_response req self).

(** Events emitted before a run. *)
Definition prepend (pre : list event) (x : outcome unit * Message * list event)
  : outcome unit * Message * list event :=
  match x with
  | (r, self, evs) => (r, self, pre ++ evs)
  end.

(** The three ways an action runs: it raises before the gateway, having
    emitted warnings at most; it goes through the gateway with one request
    under the default headers; or, for the setter, it goes through the
    gateway with its patch and stores the flag when the gateway returns. *)
Definition normal_run (self : Message) (x : outcome unit * Message * list event)
  : Prop :=
  (∃ e pre, Forall is_warning pre ∧ x = (Raise e, self, pre))
  ∨ (∃ v url data pre, Forall is_warning pre
       ∧ x = prepend pre (after_response (request_of v self url data) self))
  ∨ (∃ boolean url,
       x = then_store boolean
             (after_response (request_of HttpPatch self url
                                (Some (json_dumps_IsRead boolean))) self)).

(** Two statements in a row. *)
Definition and_then (first second : M unit) : M unit := first;; second.

(** ** Properties of the gateway *)

Ltac run_M :=
  cbv [mbind mret M_bind M_ret get_self emit lift raise send store_is_read
       app result_of self_of events_of fst snd].

Ltac pick_verb :=
  repeat match goal with
         | |- context [decide (?a = ?b)] =>
             first [ rewrite (decide_True (P := a = b)) by reflexivity
                   | rewrite (decide_False (P := a = b)) by discriminate ]
         end.

Ltac by_answer :=
  run_M;
  repeat match goal with
         | |- context [transport ?req] => destruct (transport req) as [?r|?e]; run_M
         | |- context [decide (status_code ?r = 401)] =>
             destruct (decide (status_code r = 401)); run_M
         | |- context [decide (status_code ?r > 299)] =>
             destruct (decide (status_code r > 299)); run_M
         | |- context [json ?r] => destruct (json r); run_M
         end;
  try reflexivity.

Lemma gateway_post (endpoint : string) (extra : option (gmap string string))
    (data : option string) (self : Message) :
  _make_api_call "post" endpoint extra data self =
    after_response {| req_verb := HttpPost; req_url := endpoint;
                      req_headers := merge_headers self extra;
                      req_data := data |} self.
Proof.
  unfold _make_api_call, after_response, merge_headers.
  run_M. pick_verb. by_answer.
Qed.

Lemma gateway_delete (endpoint : string) (extra : option (gmap string string))
    (data : option string) (self : Message) :
  _make_api_call "delete" endpoint extra data self =
    after_response {| req_verb := HttpDelete; req_url := endpoint;
                      req_headers := merge_headers self extra;
                      req_data := None |} self.
Proof.
  unfold _make_api_call, after_response, merge_headers.
  run_M. pick_verb. by_answer.
Qed.

Lemma gateway_patch (endpoint : string) (extra : option (gmap string string))
    (data : option string) (self : Message) :
  _make_api_call "patch" endpoint extra data self =
    after_response {| req_verb := HttpPatch; req_url := endpoint;
                      req_headers := merge_headers self extra;
                      req_data := data |} self.
Proof.
  unfold _make_api_call, after_response, merge_headers.
  run_M. pick_verb. by_answer.
Qed.

(** Any other verb: the debug record is written, nothing is sent, and the
    attempt to raise [NotImplemented] ends in a TypeError. *)
Lemma gateway_other_verb (http_type endpoint : string)
    (extra : option (gmap string string)) (data : option string) (self : Message) :
  http_type ≠ "post" → http_type ≠ "delete" → http_type ≠ "patch" →
  _make_api_call http_type endpoint extra data self
  = (Raise TypeError, self, [EvLog Debug]).
Proof.
  intros H1 H2 H3. unfold _make_api_call. run_M.
  rewrite !decide_False by assumption. reflexivity.
Qed.

(** What [after_response] leaves and emits. *)
Lemma after_response_self (req : Request) (self : Message) :
  self_of (after_response req self) = self.
Proof. unfold after_response. by_answer. Qed.

Lemma after_response_requests (req : Request) (self : Message) :
  requests_of (events_of (after_response req self)) = [req].
Proof. unfold after_response. by_answer. Qed.

(** Success: a status of at most 299 ends the call normally, whatever the
    body. *)
Lemma after_response_success (req : Request) (self : Message) (r : Response) :
  transport req = Ok r → status_code r ≤ 299 →
  after_response req self = (Ok tt, self, [EvLog Debug; EvHttp req; EvLog Debug]).
Proof.
  intros Hr Hs. unfold after_response. rewrite Hr.
  rewrite !decide_False by lia. reflexivity.
Qed.

(** Failure, when the body of the answer is JSON: 401 is an [AuthError],
    any other status above 299 a [MiscError]. *)
Lemma after_response_401 (req : Request) (self : Message) (r : Response) (v : pyval) :
  transport req = Ok r → status_code r = 401 → json r = Ok v →
  result_of (after_response req self)
  = Raise (AuthError "Access Token Error, Received 401 from Outlook REST Endpoint").
Proof.
  intros Hr Hs Hj. unfold after_response. rewrite Hr.
  rewrite decide_True by assumption. rewrite Hj. reflexivity.
Qed.

Lemma after_response_error (req : Request) (self : Message) (r : Response) (v : pyval) :
  transport req = Ok r → status_code r > 299 → status_code r ≠ 401 → json r = Ok v →
  result_of (after_response req self)
  = Raise (MiscError "Unhandled error received from Outlook. Check logging output.").
Proof.
  intros Hr Hs Hn Hj. unfold after_response. rewrite Hr.
  rewrite decide_False by assumption. rewrite decide_True by assumption.
  rewrite Hj. reflexivity.
Qed.

(** Failure, when the body of the answer is not JSON: the exception of
    [r.json()] leaves the gateway in place of the typed failure. *)
Lemma after_response_undecodable (req : Request) (self : Message) (r : Response) (e : exn) :
  transport req = Ok r → status_code r > 299 → json r = Raise e →
  after_response req self = (Raise e, self, [EvLog Debug; EvHttp req]).
Proof.
  intros Hr Hs Hj. unfold after_response. rewrite Hr, Hj.
  destruct (decide (status_code r = 401)); [reflexivity|].
  rewrite decide_True by assumption. reflexivity.
Qed.

(** ** The endpoints and payloads *)

Lemma append_empty (s : string) : s +:+ EmptyString = s.
Proof.
  induction s as [|c s IH]; [reflexivity|].
  change (String c (s +:+ EmptyString) = String c s). by rewrite IH.
Qed.

Lemma append_assoc (s1 s2 s3 : string) :
  (s1 +:+ s2) +:+ s3 = s1 +:+ s2 +:+ s3.
Proof.
  induction s1 as [|c s1 IH]; [reflexivity|].
  change (String c ((s1 +:+ s2) +:+ s3) = String c (s1 +:+ s2 +:+ s3)).
  by rewrite IH.
Qed.

Ltac literal t :=
  let t' := eval vm_compute in t in change t with t'.

Lemma format_forward_endpoint (v : pyval) :
  py_format builtin_format (api_root +:+ "{}/forward") [v]
  = text ← render_field builtin_format v EmptyString;
    Ok (api_root +:+ text +:+ "/forward").
Proof.
  unfold py_format. literal (api_root +:+ "{}/forward").
  cbn -[render_field String.append].
  destruct (render_field builtin_format v EmptyString); reflexivity.
Qed.

Lemma format_replyall_endpoint (v : pyval) :
  py_format builtin_format (api_root +:+ "{}/replyall") [v]
  = text ← render_field builtin_format v EmptyString;
    Ok (api_root +:+ text +:+ "/replyall").
Proof.
  unfold py_format. literal (api_root +:+ "{}/replyall").
  cbn -[render_field String.append].
  destruct (render_field builtin_format v EmptyString); reflexivity.
Qed.

Lemma format_message_endpoint (v : pyval) :
  py_format builtin_format (api_root +:+ "{}") [v]
  = text ← render_field builtin_format v EmptyString;
    Ok (api_root +:+ text).
Proof.
  unfold py_format. literal (api_root +:+ "{}").
  cbn -[render_field String.append].
  destruct (render_field builtin_format v EmptyString) as [text|e]; [|reflexivity].
  cbn. by rewrite append_empty.
Qed.

(** The template of [_copy_to] opens a replacement field with its first
    brace; the name of the field runs up to the colon. *)
Lemma format_copy_payload (destination : string) :
  py_format builtin_format
    ("{ " +:+ quoted "DestinationId" +:+ ": " +:+ quoted "{}" +:+ "}")
    [PyStr destination]
  = Raise (KeyError (" " +:+ quoted "DestinationId")).
Proof. reflexivity. Qed.

(** ** The actions, one by one *)

Ltac finish_call :=
  rewrite ?gateway_post, ?gateway_delete, ?gateway_patch, ?append_assoc;
  unfold merge_headers, request_of, comment_payload, destination_payload;
  match goal with
  | |- context [after_response ?req ?self] =>
      destruct (after_response req self) as [[[[]|?] ?] ?]
  end; reflexivity.

Lemma reply_run (reply_comment : string) (self : Message) :
  reply reply_comment self =
    match message_id self with
    | PyStr mid =>
        after_response (request_of HttpPost self (api_root +:+ mid +:+ "/reply")
                          (Some (comment_payload reply_comment))) self
    | _ => (Raise TypeError, self, [])
    end.
Proof.
  unfold reply. run_M. destruct (message_id self); try reflexivity.
  cbn [py_str_add]. finish_call.
Qed.

Lemma reply_all_run (reply_comment : string) (self : Message) :
  reply_all reply_comment self =
    match render_field builtin_format (message_id self) EmptyString with
    | Ok mid =>
        after_response (request_of HttpPost self (api_root +:+ mid +:+ "/replyall")
                          (Some (comment_payload reply_comment))) self
    | Raise e => (Raise e, self, [])
    end.
Proof.
  unfold reply_all. run_M. rewrite format_replyall_endpoint.
  destruct (render_field builtin_format (message_id self) EmptyString);
    cbn [mbind outcome_bind]; [|reflexivity].
  finish_call.
Qed.

Lemma delete_run (self : Message) :
  delete self =
    match message_id self with
    | PyStr mid => after_response (request_of HttpDelete self (api_root +:+ mid) None) self
    | _ => (Raise TypeError, self, [])
    end.
Proof.
  unfold delete. run_M. destruct (message_id self); try reflexivity.
  cbn [py_str_add]. finish_call.
Qed.

Lemma move_run (destination : string) (self : Message) :
  _move_to destination self =
    match message_id self with
    | PyStr mid =>
        after_response (request_of HttpPost self (api_root +:+ mid +:+ "/move")
                          (Some (destination_payload destination))) self
    | _ => (Raise TypeError, self, [])
    end.
Proof.
  unfold _move_to. run_M. destruct (message_id self); try reflexivity.
  cbn [py_str_add]. finish_call.
Qed.

(** [_copy_to] never reaches the gateway: formatting its payload raises. *)
Lemma copy_run (destination : string) (self : Message) :
  _copy_to destination self =
    (Raise match message_id self with
           | PyStr _ => KeyError (" " +:+ quoted "DestinationId")
           | _ => TypeError
           end, self, []).
Proof.
  unfold _copy_to. run_M.
  destruct (message_id self); cbn [py_str_add];
    rewrite ?format_copy_payload; reflexivity.
Qed.

Lemma forward_run (recipients : pyval) (forward_comment : option string)
    (self : Message) :
  forward_message recipients forward_comment self =
    match recipients with
    | PyNone =>
        (Raise (MiscError "To Recipients is not defined. Can not forward message."),
         self, [])
    | _ =>
        match jsonify_recipients recipients "to" true with
        | Ok (PyStr serialised) =>
            match render_field builtin_format (message_id self) EmptyString with
            | Ok mid =>
                after_response
                  (request_of HttpPost self (api_root +:+ mid +:+ "/forward")
                     (Some (forward_payload forward_comment
                              (quoted "ToRecipients" +:+ " : [" +:+ serialised))))
                  self
            | Raise e => (Raise e, self, [])
            end
        | Ok _ => (Raise TypeError, self, [])
        | Raise e => (Raise e, self, [])
        end
    end.
Proof.
  unfold forward_message, forward_payload.
  destruct recipients; try reflexivity; run_M;
    (destruct (jsonify_recipients _ "to" true) as [[]|]; try reflexivity;
     cbn [py_str_add]; rewrite format_forward_endpoint;
     destruct (render_field builtin_format (message_id self) EmptyString);
     cbn [mbind outcome_bind]; [|reflexivity];
     destruct forward_comment; finish_call).
Qed.

Lemma setter_run (boolean : bool) (self : Message) :
  is_read_setter boolean self =
    match render_field builtin_format (message_id self) EmptyString with
    | Ok mid =>
        then_store boolean
          (after_response (request_of HttpPatch self (api_root +:+ mid)
                             (Some (json_dumps_IsRead boolean))) self)
    | Raise e => (Raise e, self, [])
    end.
Proof.
  unfold is_read_setter. run_M. rewrite format_message_endpoint.
  destruct (render_field builtin_format (message_id self) EmptyString);
    cbn [mbind outcome_bind]; [|reflexivity].
  rewrite gateway_patch. unfold merge_headers, request_of, then_store.
  match goal with
  | |- context [after_response ?req ?self] =>
      destruct (after_response req self) as [[[[]|?] ?] ?]
  end; [|reflexivity].
  f_equal. apply (app_nil_r (A := event)).
Qed.

Lemma delete_message_run (self : Message) :
  delete_message self =
    match delete self with
    | (r, self', evs) =>
        (r, self',
         EvWarn "DeprecationWarning"
           "delete_message() is deprecated and will be removed in v1.0. Use delete() instead."
         :: evs)
    end.
Proof.
  unfold delete_message. run_M.
  destruct (delete self) as [[[[]|?] ?] ?]; reflexivity.
Qed.

(** ** Every action *)

Lemma then_store_result (boolean : bool) (x : outcome unit * Message * list event) :
  result_of (then_store boolean x) = result_of x.
Proof. by destruct x as [[[[]|?] ?] ?]. Qed.

Lemma then_store_events (boolean : bool) (x : outcome unit * Message * list event) :
  events_of (then_store boolean x) = events_of x.
Proof. by destruct x as [[[[]|?] ?] ?]. Qed.

Lemma early (e : exn) (self : Message) :
  stops_early (Raise e : outcome unit, self, []).
Proof. exists e. split; [reflexivity|constructor]. Qed.

Lemma through (self : Message) (req : Request) :
  goes_through self (after_response req self).
Proof. exists req, []. split; [constructor|]. split; reflexivity. Qed.

Lemma action_shape (a : action) (self : Message) :
  stops_early (run_action a self) ∨ goes_through self (run_action a self).
Proof.
  destruct a as [rc fc|c|c| | | | | |d| | | |d|b]; cbn [run_action];
    unfold move_to_inbox, move_to_deleted, move_to_drafts, move_to,
           copy_to_inbox, copy_to_deleted, copy_to_drafts, copy_to;
    rewrite ?forward_run, ?reply_run, ?reply_all_run, ?delete_run, ?move_run,
            ?copy_run, ?setter_run.
  - destruct rc; auto using early;
      (destruct (jsonify_recipients _ "to" true) as [[]|]; auto using early;
       destruct (render_field builtin_format (message_id self) EmptyString);
       auto using early, through).
  - destruct (message_id self); auto using early, through.
  - destruct (render_field builtin_format (message_id self) EmptyString);
      auto using early, through.
  - rewrite delete_message_run, delete_run.
    destruct (message_id self);
      try (left; eexists; split; [reflexivity|by repeat constructor]).
    right. match goal with
           | |- context [after_response ?req self] =>
               exists req, [EvWarn "DeprecationWarning"
                 "delete_message() is deprecated and will be removed in v1.0. Use delete() instead."];
               destruct (after_response req self) as [[? ?] ?]
           end.
    split; [by repeat constructor|]. split; reflexivity.
  - destruct (message_id self); auto using early, through.
  - destruct (message_id self); auto using early, through.
  - destruct (message_id self); auto using early, through.
  - destruct (message_id self); auto using early, through.
  - destruct (message_id self); auto using early, through.
  - auto using early.
  - auto using early.
  - auto using early.
  - auto using early.
  - destruct (render_field builtin_format (message_id self) EmptyString);
      auto using early.
    right. match goal with
           | |- context [after_response ?req self] => exists req, []
           end.
    split; [constructor|]. by rewrite then_store_result, then_store_events.
Qed.

Lemma requests_of_warnings (pre : list event) :
  Forall is_warning pre → requests_of pre = [].
Proof.
  induction 1 as [|ev pre Hev _ IH]; [reflexivity|].
  destruct ev; first [done | exact IH].
Qed.

Lemma requests_of_app (l1 l2 : list event) :
  requests_of (l1 ++ l2) = requests_of l1 ++ requests_of l2.
Proof. unfold requests_of. apply omap_app. Qed.

(** The request an action sent decides how it ends. *)
Lemma action_ends_as_gateway (a : action) (self : Message) (req : Request) :
  requests_of (events_of (run_action a self)) = [req] →
  result_of (run_action a self) = result_of (after_response req self).
Proof.
  intros Hreq. destruct (action_shape a self) as [(e & _ & Hw)|(req' & pre & Hw & Hev & Hres)].
  - by rewrite (requests_of_warnings _ Hw) in Hreq.
  - rewrite Hev, requests_of_app, (requests_of_warnings _ Hw),
      after_response_requests in Hreq.
    by simplify_eq/=.
Qed.

(** A status of at most 299 ends every action normally. *)
Lemma action_success (a : action) (self : Message) (req : Request) (r : Response) :
  requests_of (events_of (run_action a self)) = [req] →
  transport req = Ok r → status_code r ≤ 299 →
  result_of (run_action a self) = Ok tt.
Proof.
  intros Hreq Hr Hs. rewrite (action_ends_as_gateway a self req Hreq).
  by rewrite (after_response_success req self r Hr Hs).
Qed.

(** With a JSON body, a 401 ends every action in [AuthError] and any other
    status above 299 in [MiscError]. *)
Lemma action_unauthorized (a : action) (self : Message) (req : Request)
    (r : Response) (v : pyval) :
  requests_of (events_of (run_action a self)) = [req] →
  transport req = Ok r → status_code r = 401 → json r = Ok v →
  result_of (run_action a self)
  = Raise (AuthError "Access Token Error, Received 401 from Outlook REST Endpoint").
Proof.
  intros Hreq Hr Hs Hj. rewrite (action_ends_as_gateway a self req Hreq).
  by apply (after_response_401 req self r v).
Qed.

Lemma action_remote_error (a : action) (self : Message) (req : Request)
    (r : Response) (v : pyval) :
  requests_of (events_of (run_action a self)) = [req] →
  transport req = Ok r → status_code r > 299 → status_code r ≠ 401 → json r = Ok v →
  result_of (run_action a self)
  = Raise (MiscError "Unhandled error received from Outlook. Check logging output.").
Proof.
  intros Hreq Hr Hs Hn Hj. rewrite (action_ends_as_gateway a self req Hreq).
  by apply (after_response_error req self r v).
Qed.

(** No action enters the gateway with a verb it does not know: whenever
    the gateway wrote its first log record, a request was sent. *)
Lemma action_verbs_known (a : action) (self : Message) :
  EvLog Debug ∈ events_of (run_action a self) →
  ∃ req, requests_of (events_of (run_action a self)) = [req].
Proof.
  intros Hin. destruct (action_shape a self) as [(e & _ & Hw)|(req & pre & Hw & Hev & _)].
  - rewrite Forall_forall in Hw. by apply Hw in Hin.
  - exists req. by rewrite Hev, requests_of_app, (requests_of_warnings _ Hw),
      after_response_requests.
Qed.

(** ** The claims about the actions *)

(** C2.  Assigning [is_read] builds a body that is the JSON object with
    the one member [IsRead], of the value assigned.  On every message
    whose identifier formats into the endpoint, as every string does, the
    setter sends one request, a patch to the bare message endpoint under
    the default headers with that body.  If the transport answers it with
    a status of at most 299, the setter returns and the field holds the
    value assigned.  If the remote call fails, the transport answering
    with a status above 299 or raising, the setter raises and the field
    holds what it held.  On a message whose identifier does not format,
    the setter raises, sends nothing and leaves the message.  And whenever
    the setter raises, the field holds what it held. *)
Theorem C2_is_read_setter (self : Message) (boolean : bool) :
  let run := is_read_setter boolean self in
  encodes_member (json_dumps_IsRead boolean) "IsRead" (JBoolean boolean)
  ∧ (∀ e, result_of run = Raise e → is_read (self_of run) = is_read self)
  ∧ (∀ mid, render_field builtin_format (message_id self) EmptyString = Ok mid →
       let req := request_of HttpPatch self (api_root +:+ mid)
                    (Some (json_dumps_IsRead boolean)) in
       requests_of (events_of run) = [req]
       ∧ (∀ r, transport req = Ok r → status_code r ≤ 299 →
            result_of run = Ok tt ∧ is_read (self_of run) = PyBool boolean)
       ∧ (∀ r, transport req = Ok r → status_code r > 299 →
            (∃ e, result_of run = Raise e) ∧ self_of run = self)
       ∧ (∀ e, transport req = Raise e →
            result_of run = Raise e ∧ self_of run = self))
  ∧ (∀ mid, message_id self = PyStr mid →
       render_field builtin_format (message_id self) EmptyString = Ok mid)
  ∧ (∀ e, render_field builtin_format (message_id self) EmptyString = Raise e →
       run = (Raise e, self, [])).
Proof.
  intros run. subst run. rewrite setter_run.
  split; [by destruct boolean|]. split; [|split; [|split]].
  - intros e.
    destruct (render_field builtin_format (message_id self) EmptyString) as [mid|e'];
      [|done].
    match goal with
    | |- context [after_response ?req self] =>
        pose proof (after_response_self req self) as Hself;
        destruct (after_response req self) as [[[[]|e'] self'] evs]; [done|]
    end.
    cbn in Hself |- *. by subst.
  - intros mid Hid req. rewrite Hid. fold req. split; [|split; [|split]].
    + by rewrite then_store_events, after_response_requests.
    + intros r Hr Hs. by rewrite (after_response_success req self r Hr Hs).
    + intros r Hr Hs. unfold after_response. rewrite Hr.
      destruct (decide (status_code r = 401)).
      * destruct (json r); cbn; eauto.
      * rewrite decide_True by assumption. destruct (json r); cbn; eauto.
    + intros e He. unfold after_response. by rewrite He.
  - intros mid Hid. by rewrite Hid.
  - intros e He. by rewrite He.
Qed.

(** [forward_message] with recipients [None] raises [MiscError] at once:
    nothing is sent, nothing is logged, the serialiser is not consulted.
    For any other recipients it has no guard of its own: what the
    serialiser raises leaves it before anything is sent, and when the
    serialiser returns a text, the post to the [/forward] endpoint is made
    with that text as the recipient list. *)
Lemma forward_and_the_serialiser (forward_comment : option string) (self : Message) :
  forward_message PyNone forward_comment self
  = (Raise (MiscError "To Recipients is not defined. Can not forward message."),
     self, [])
  ∧ (∀ recipients e,
       recipients ≠ PyNone →
       jsonify_recipients recipients "to" true = Raise e →
       forward_message recipients forward_comment self = (Raise e, self, []))
  ∧ (∀ recipients serialised mid,
       recipients ≠ PyNone →
       jsonify_recipients recipients "to" true = Ok (PyStr serialised) →
       message_id self = PyStr mid →
       requests_of (events_of (forward_message recipients forward_comment self))
       = [request_of HttpPost self (api_root +:+ mid +:+ "/forward")
            (Some (forward_payload forward_comment
                     (quoted "ToRecipients" +:+ " : [" +:+ serialised)))]).
Proof.
  split; [reflexivity|]. split.
  - intros recipients e Hne Hj. rewrite forward_run, Hj. by destruct recipients.
  - intros recipients serialised mid Hne Hj Hid. rewrite forward_run, Hj, Hid.
    cbn [render_field]. destruct recipients; try done;
      apply after_response_requests.
Qed.

(** C4: what [copy_to] and its three wrappers do.  On every message and for
    every folder they raise while the payload is being formatted, a
    [KeyError] when the identifier is a string: nothing is logged and
    nothing is sent. *)
Theorem C4_copy_raises_before_posting (folder_id : string) (self : Message) :
  let failure : outcome unit :=
    Raise match message_id self with
          | PyStr _ => KeyError (" " +:+ quoted "DestinationId")
          | _ => TypeError
          end in
  copy_to folder_id self = (failure, self, [])
  ∧ copy_to_inbox self = (failure, self, [])
  ∧ copy_to_deleted self = (failure, self, [])
  ∧ copy_to_drafts self = (failure, self, []).
Proof.
  unfold copy_to, copy_to_inbox, copy_to_deleted, copy_to_drafts.
  by rewrite !copy_run.
Qed.

(** C8: what the gateway does with the verb [get].  The debug record is
    written, nothing is sent, and the exception that leaves is a
    [TypeError], from raising the constant [NotImplemented]. *)
Theorem C8_unknown_verb_raises_TypeError (endpoint : string)
    (extra : option (gmap string string)) (data : option string) (self : Message) :
  _make_api_call "get" endpoint extra data self
  = (Raise TypeError, self, [EvLog Debug]).
Proof. by apply gateway_other_verb. Qed.

(** C9.  [delete_message] is [delete] after a deprecation warning: the
    same result, the same message, and the events of [delete] behind the
    warning.  On a message whose identifier is a string both send one
    request, a delete to the bare message endpoint under the default
    headers and without a body. *)
Theorem C9_delete_message (self : Message) :
  delete_message self
  = (result_of (delete self), self_of (delete self),
     EvWarn "DeprecationWarning"
       "delete_message() is deprecated and will be removed in v1.0. Use delete() instead."
     :: events_of (delete self))
  ∧ (∀ mid, message_id self = PyStr mid →
       let req := request_of HttpDelete self (api_root +:+ mid) None in
       requests_of (events_of (delete self)) = [req]
       ∧ requests_of (events_of (delete_message self)) = [req]).
Proof.
  split.
  - rewrite delete_message_run. by destruct (delete self) as [[? ?] ?].
  - intros mid Hid req. rewrite delete_message_run, delete_run, Hid. fold req.
    pose proof (after_response_requests req self) as Hreq.
    destruct (after_response req self) as [[? ?] ?]. by split.
Qed.

(** C10.  Every action other than the setter of [is_read] leaves the
    message as it found it, account, identifier, body, subject, sender,
    recipients and read flag, however the action ends. *)
Theorem C10_actions_leave_the_message (a : action) (self : Message) :
  is_setter a = false →
  self_of (run_action a self) = self.
Proof.
  destruct a as [rc fc|c|c| | | | | |d| | | |d|b]; [..|discriminate]; intros _;
    cbn [run_action];
    unfold move_to_inbox, move_to_deleted, move_to_drafts, move_to,
           copy_to_inbox, copy_to_deleted, copy_to_drafts, copy_to;
    rewrite ?delete_message_run;
    rewrite ?forward_run, ?reply_run, ?reply_all_run, ?delete_run, ?move_run,
            ?copy_run;
    try reflexivity.
  - destruct rc; try reflexivity;
      (destruct (jsonify_recipients _ "to" true) as [[]|]; try reflexivity;
       destruct (render_field builtin_format (message_id self) EmptyString);
       [apply after_response_self|reflexivity]).
  - destruct (message_id self); try reflexivity. apply after_response_self.
  - destruct (render_field builtin_format (message_id self) EmptyString);
      [apply after_response_self|reflexivity].
  - destruct (message_id self); try reflexivity.
    match goal with
    | |- context [after_response ?req self] =>
        pose proof (after_response_self req self) as H;
        by destruct (after_response req self) as [[? ?] ?]
    end.
  - destruct (message_id self); try reflexivity. apply after_response_self.
  - destruct (message_id self); try reflexivity. apply after_response_self.
  - destruct (message_id self); try reflexivity. apply after_response_self.
  - destruct (message_id self); try reflexivity. apply after_response_self.
  - destruct (message_id self); try reflexivity. apply after_response_self.
Qed.

(** ** Further properties of the gateway and the actions *)

Lemma normal_early (e : exn) (self : Message) :
  normal_run self (Raise e, self, []).
Proof. left. exists e, []. split; [constructor|reflexivity]. Qed.

Lemma normal_through (v : verb) (url : string) (data : option string)
    (self : Message) :
  normal_run self (after_response (request_of v self url data) self).
Proof.
  right. left. exists v, url, data, []. split; [constructor|].
  by destruct (after_response _ self) as [[? ?] ?].
Qed.

Lemma action_normal_form (a : action) (self : Message) :
  normal_run self (run_action a self).
Proof.
  destruct a as [rc fc|c|c| | | | | |d| | | |d|b]; cbn [run_action];
    unfold move_to_inbox, move_to_deleted, move_to_drafts, move_to,
           copy_to_inbox, copy_to_deleted, copy_to_drafts, copy_to;
    rewrite ?forward_run, ?reply_run, ?reply_all_run, ?delete_run, ?move_run,
            ?copy_run, ?setter_run.
  - destruct rc; auto using normal_early;
      (destruct (jsonify_recipients _ "to" true) as [[]|]; auto using normal_early;
       destruct (render_field builtin_format (message_id self) EmptyString);
       auto using normal_early, normal_through).
  - destruct (message_id self); auto using normal_early, normal_through.
  - destruct (render_field builtin_format (message_id self) EmptyString);
      auto using normal_early, normal_through.
  - rewrite delete_message_run, delete_run.
    destruct (message_id self) as [| | | |mid| |];
      try (left; exists TypeError,
             [EvWarn "DeprecationWarning"
                "delete_message() is deprecated and will be removed in v1.0. Use delete() instead."];
           split; [by repeat constructor|reflexivity]).
    right. left. exists HttpDelete, (api_root +:+ mid), None,
      [EvWarn "DeprecationWarning"
         "delete_message() is deprecated and will be removed in v1.0. Use delete() instead."].
    split; [by repeat constructor|].
    by destruct (after_response _ self) as [[? ?] ?].
  - destruct (message_id self); auto using normal_early, normal_through.
  - destruct (message_id self); auto using normal_early, normal_through.
  - destruct (message_id self); auto using normal_early, normal_through.
  - destruct (message_id self); auto using normal_early, normal_through.
  - destruct (message_id self); auto using normal_early, normal_through.
  - auto using normal_early.
  - auto using normal_early.
  - auto using normal_early.
  - auto using normal_early.
  - destruct (render_field builtin_format (message_id self) EmptyString) as [mid|];
      auto using normal_early.
    right. right. by exists b, (api_root +:+ mid).
Qed.

Lemma after_response_events (req : Request) (self : Message) :
  ∃ tail, events_of (after_response req self) = EvLog Debug :: EvHttp req :: tail.
Proof. unfold after_response. by_answer; by eexists. Qed.

Lemma after_response_returns (req : Request) (self : Message) :
  result_of (after_response req self) = Ok tt ↔
  ∃ r, transport req = Ok r ∧ status_code r ≤ 299.
Proof.
  split.
  - unfold after_response. destruct (transport req) as [r|]; [|discriminate].
    destruct (decide (status_code r = 401)); [by destruct (json r)|].
    destruct (decide (status_code r > 299)); [by destruct (json r)|].
    intros _. exists r. split; [reflexivity|lia].
  - intros (r & Hr & Hs). by rewrite (after_response_success req self r Hr Hs).
Qed.

Lemma after_response_transport_raises (req : Request) (self : Message) (e : exn) :
  transport req = Raise e →
  after_response req self = (Raise e, self, [EvLog Debug; EvHttp req]).
Proof. intros H. unfold after_response. by rewrite H. Qed.

Lemma prepend_requests (pre : list event) (x : outcome unit * Message * list event) :
  Forall is_warning pre →
  requests_of (events_of (prepend pre x)) = requests_of (events_of x).
Proof.
  intros Hw. destruct x as [[r s] evs]. cbn.
  by rewrite requests_of_app, (requests_of_warnings _ Hw).
Qed.

Lemma prepend_result (pre : list event) (x : outcome unit * Message * list event) :
  result_of (prepend pre x) = result_of x.
Proof. by destruct x as [[? ?] ?]. Qed.

Lemma prepend_self (pre : list event) (x : outcome unit * Message * list event) :
  self_of (prepend pre x) = self_of x.
Proof. by destruct x as [[? ?] ?]. Qed.

(** The requests of a run in normal form. *)
Lemma normal_run_requests (self : Message) (x : outcome unit * Message * list event) :
  normal_run self x →
  (requests_of (events_of x) = [] ∧ ∃ e, result_of x = Raise e ∧ self_of x = self)
  ∨ ∃ v url data,
      requests_of (events_of x) = [request_of v self url data]
      ∧ result_of x = result_of (after_response (request_of v self url data) self)
      ∧ (∀ e, result_of x = Raise e → self_of x = self).
Proof.
  intros [(e & pre & Hw & ->)|[(v & url & data & pre & Hw & ->)|(b & url & ->)]].
  - left. split; [by apply requests_of_warnings|]. by exists e.
  - right. exists v, url, data.
    rewrite (prepend_requests _ _ Hw), prepend_result, prepend_self,
      after_response_requests, after_response_self. done.
  - right. exists HttpPatch, url, (Some (json_dumps_IsRead b)).
    rewrite then_store_events, then_store_result, after_response_requests.
    split; [reflexivity|]. split; [reflexivity|].
    intros e. pose proof (after_response_self (request_of HttpPatch self url
                            (Some (json_dumps_IsRead b))) self) as Hs.
    destruct (after_response _ self) as [[[[]|e'] s] evs]; [done|].
    intros _. exact Hs.
Qed.

(** X9.  An action returns exactly when it sent a request and the
    transport answered it with a status of at most 299. *)
Theorem action_returns_iff (a : action) (self : Message) :
  result_of (run_action a self) = Ok tt ↔
  ∃ req r, requests_of (events_of (run_action a self)) = [req]
           ∧ transport req = Ok r ∧ status_code r ≤ 299.
Proof.
  split.
  - intros Hok.
    destruct (normal_run_requests self _ (action_normal_form a self))
      as [(_ & e & He & _)|(v & url & data & Hreq & Hres & _)].
    + by rewrite He in Hok.
    + rewrite Hres in Hok. apply after_response_returns in Hok as (r & Hr & Hs).
      by exists (request_of v self url data), r.
  - intros (req & r & Hreq & Hr & Hs). by apply (action_success a self req r).
Qed.

(** X10.  No action sends more than one request, and every request an
    action sends carries the default headers: the bearer token of the
    account of the message and the JSON content type. *)
Theorem action_requests (a : action) (self : Message) :
  (length (requests_of (events_of (run_action a self))) ≤ 1)%nat
  ∧ ∀ req, req ∈ requests_of (events_of (run_action a self)) →
      req_headers req !! "Authorization"
        = Some ("Bearer " +:+ access_token (account self))
      ∧ req_headers req !! "Content-Type" = Some "application/json"
      ∧ dom (req_headers req) = {[ "Authorization"; "Content-Type" ]}.
Proof.
  destruct (normal_run_requests self _ (action_normal_form a self))
    as [(Hreq & _)|(v & url & data & Hreq & _)]; rewrite Hreq.
  - split; [cbn; lia|]. intros req Hin. by apply elem_of_nil in Hin.
  - split; [cbn; lia|]. intros req Hin. apply list_elem_of_singleton in Hin as ->.
    cbn [request_of req_headers]. unfold default_headers.
    split; [reflexivity|]. split; [reflexivity|].
    rewrite !dom_insert_L, ?dom_singleton_L, ?dom_empty_L. set_solver.
Qed.

(** X11.  An action that raises leaves the message as it found it, the
    setter of [is_read] included. *)
Theorem action_raise_keeps_message (a : action) (self : Message) (e : exn) :
  result_of (run_action a self) = Raise e →
  self_of (run_action a self) = self.
Proof.
  intros He.
  destruct (normal_run_requests self _ (action_normal_form a self))
    as [(_ & e' & _ & Hs)|(v & url & data & _ & _ & Hs)].
  - exact Hs.
  - by apply (Hs e).
Qed.

(** X12.  When the transport itself raises on the request of an action,
    that exception leaves the action as it is: the request is not sent
    again, no error record is written and the message is left as it was. *)
Theorem transport_failure_passes_through (a : action) (self : Message)
    (req : Request) (e : exn) :
  req ∈ requests_of (events_of (run_action a self)) →
  transport req = Raise e →
  result_of (run_action a self) = Raise e
  ∧ self_of (run_action a self) = self
  ∧ requests_of (events_of (run_action a self)) = [req]
  ∧ EvLog Error ∉ events_of (run_action a self).
Proof.
  intros Hin Hraise.
  pose proof (action_normal_form a self)
    as [(e' & pre & Hw & Hx)|[(v & url & data & pre & Hw & Hx)|(b & url & Hx)]];
    rewrite Hx in Hin |- *.
  - change (req ∈ requests_of pre) in Hin.
    rewrite (requests_of_warnings _ Hw) in Hin. by apply elem_of_nil in Hin.
  - rewrite (prepend_requests _ _ Hw), after_response_requests in Hin.
    apply list_elem_of_singleton in Hin as ->.
    rewrite (after_response_transport_raises _ self e Hraise). cbn.
    split; [reflexivity|]. split; [reflexivity|].
    split; [by rewrite requests_of_app, (requests_of_warnings _ Hw)|].
    rewrite elem_of_app, !elem_of_cons, elem_of_nil.
    intros [Hpre|[?|[?|[]]]]; try discriminate.
    rewrite Forall_forall in Hw. by apply Hw in Hpre.
  - rewrite then_store_events, after_response_requests in Hin.
    apply list_elem_of_singleton in Hin as ->.
    rewrite (after_response_transport_raises _ self e Hraise). cbn.
    split; [reflexivity|]. split; [reflexivity|]. split; [reflexivity|].
    rewrite !elem_of_cons, elem_of_nil. intros [?|[?|[]]]; discriminate.
Qed.

(** X13.  What the gateway sends for the verbs it knows: one request, to
    the endpoint it was given.  A header the caller passed wins over the
    default one of the same name, the bearer token included, and the other
    default headers stay.  The body is the data it was given, except for
    [delete], which sends none whatever it was given. *)
Theorem gateway_request (http_type endpoint : string)
    (extra : option (gmap string string)) (data : option string) (self : Message) :
  http_type ∈ ["post"; "delete"; "patch"] →
  ∃ req,
    requests_of (events_of (_make_api_call http_type endpoint extra data self)) = [req]
    ∧ req_url req = endpoint
    ∧ req_data req = (if decide (http_type = "delete") then None else data)
    ∧ ∀ k, req_headers req !! k =
        match extra ≫= (.!! k) with
        | Some v => Some v
        | None => default_headers (account self) !! k
        end.
Proof.
  intros Hin.
  assert (Hk : ∀ k, merge_headers self extra !! k =
                match extra ≫= (.!! k) with
                | Some v => Some v
                | None => default_headers (account self) !! k
                end).
  { intros k. unfold merge_headers. destruct extra as [e|]; cbn; [|reflexivity].
    destruct (e !! k) as [v|] eqn:He.
    - by apply lookup_union_Some_l.
    - by apply lookup_union_r. }
  apply list_elem_of_In in Hin. simpl in Hin.
  destruct Hin as [<-|[<-|[<-|[]]]];
    rewrite ?gateway_post, ?gateway_delete, ?gateway_patch, after_response_requests;
    eexists; (split; [reflexivity|]); cbn; done.
Qed.

(** X14.  On a message whose identifier is not a string, [reply],
    [delete], [delete_message] and the moves raise [TypeError] while
    building the endpoint and leave the message as it was: nothing is
    logged and nothing is sent, and the only event is the deprecation
    warning of [delete_message], which comes before its [delete]. *)
Theorem string_identifier_needed (self : Message) (text : string) :
  ¬ is_str (message_id self) →
  reply text self = (Raise TypeError, self, [])
  ∧ delete self = (Raise TypeError, self, [])
  ∧ _move_to text self = (Raise TypeError, self, [])
  ∧ delete_message self
    = (Raise TypeError, self,
       [EvWarn "DeprecationWarning"
          "delete_message() is deprecated and will be removed in v1.0. Use delete() instead."])
  ∧ result_of (delete_message self) = Raise TypeError
  ∧ requests_of (events_of (delete_message self)) = [].
Proof.
  intros Hid. rewrite delete_message_run, reply_run, delete_run, move_run.
  by destruct (message_id self); try (by destruct Hid).
Qed.

(** X15.  The setter of [is_read] writes that field and no other, and
    writes it only with the value assigned. *)
Theorem setter_changes_only_is_read (boolean : bool) (self : Message) :
  let after := self_of (is_read_setter boolean self) in
  account after = account self ∧ message_id after = message_id self
  ∧ body after = body self ∧ subject after = subject self
  ∧ sender_email after = sender_email self
  ∧ sender_name after = sender_name self
  ∧ to_recipients after = to_recipients self
  ∧ (is_read after = is_read self ∨ is_read after = PyBool boolean).
Proof.
  cbn zeta. rewrite setter_run.
  destruct (render_field builtin_format (message_id self) EmptyString) as [mid|];
    [|by repeat split; try left].
  match goal with
  | |- context [after_response ?req self] =>
      pose proof (after_response_self req self) as Hs;
      destruct (after_response req self) as [[[[]|e] s] evs]
  end; cbn in Hs |- *; subst s; repeat split; auto.
Qed.

(** X16.  Two assignments in a row, on a message whose identifier is a
    string and over a transport that accepts what it is sent: both patches
    go out, in order and to the same endpoint, and the field ends with the
    value assigned last. *)
Theorem setter_twice (b1 b2 : bool) (self : Message) (mid : string) :
  message_id self = PyStr mid →
  (∀ req, ∃ r, transport req = Ok r ∧ status_code r ≤ 299) →
  let run := and_then (is_read_setter b1) (is_read_setter b2) self in
  result_of run = Ok tt
  ∧ is_read (self_of run) = PyBool b2
  ∧ requests_of (events_of run)
    = [request_of HttpPatch self (api_root +:+ mid) (Some (json_dumps_IsRead b1));
       request_of HttpPatch self (api_root +:+ mid) (Some (json_dumps_IsRead b2))].
Proof.
  intros Hid Hacc run. subst run. unfold and_then. cbv [mbind M_bind].
  rewrite setter_run, Hid. cbn [render_field].
  destruct (Hacc (request_of HttpPatch self (api_root +:+ mid)
                    (Some (json_dumps_IsRead b1)))) as (r1 & Hr1 & Hs1).
  rewrite (after_response_success _ self r1 Hr1 Hs1). cbn [then_store].
  rewrite setter_run. cbn [message_id]. rewrite !Hid. cbn [render_field].
  match goal with
  | |- context [after_response ?req ?s] =>
      destruct (Hacc req) as (r2 & Hr2 & Hs2);
      rewrite (after_response_success req s r2 Hr2 Hs2)
  end.
  cbn. done.
Qed.

(** X17.  [forward_message] expects a string from the recipient
    serialiser: when the serialiser returns anything else, None included,
    the concatenation of the payload raises [TypeError] and nothing is
    sent. *)
Theorem forward_needs_serialised_text (recipients : pyval)
    (forward_comment : option string) (self : Message) (v : pyval) :
  recipients ≠ PyNone →
  jsonify_recipients recipients "to" true = Ok v →
  ¬ is_str v →
  forward_message recipients forward_comment self = (Raise TypeError, self, []).
Proof.
  intros Hne Hj Hv. rewrite forward_run, Hj.
  destruct recipients; try done; by destruct v; try (by destruct Hv).
Qed.

End Client.

(** * Properties *)

(** ** The factory *)

Lemma py_get_dict (d : gmap string pyval) (k : string) (dflt : pyval) :
  py_get (PyDict d) k dflt = Ok (default dflt (d !! k)).
Proof. unfold py_get. by destruct (d !! k). Qed.

Lemma py_getitem_dict (d : gmap string pyval) (k : string) :
  py_getitem (PyDict d) k = from_option Ok (Raise (KeyError k)) (d !! k).
Proof. unfold py_getitem. by destruct (d !! k). Qed.

(** Without an [Id] the factory stops at its first line, whatever else the
    object holds. *)
Lemma factory_requires_Id (acct : OutlookAccount) (d : gmap string pyval) :
  d !! "Id" = None →
  _json_to_message acct (PyDict d) = Raise (KeyError "Id").
Proof.
  intros H. unfold _json_to_message.
  rewrite (py_getitem_dict d "Id"), H. reflexivity.
Qed.

Lemma factory_of_object (acct : OutlookAccount) (d : gmap string pyval) :
  nested_members_are_objects d →
  _json_to_message acct (PyDict d) =
    uid ← py_getitem (PyDict d) "Id";
    rd ← py_getitem (PyDict d) "IsRead";
    Ok {| account := acct; message_id := uid;
          body := default (PyStr "") (member2 d "Body" "Content");
          subject := default (PyStr "") (d !! "Subject");
          sender_email := default (PyStr "") (member3 d "Sender" "EmailAddress" "Address");
          sender_name := default (PyStr "") (member3 d "Sender" "EmailAddress" "Name");
          to_recipients := default (PyList []) (d !! "ToRecipients");
          is_read := rd |}.
Proof.
  intros [Hbody Hsender]. unfold _json_to_message.
  destruct (py_getitem (PyDict d) "Id") as [uid|e]; [|reflexivity].
  destruct (py_getitem (PyDict d) "IsRead") as [rd|e];
    unfold py_get, member3, member2, optional_dict in *;
    destruct (d !! "Sender") as [[| | | | |?|s]|]; try done;
    destruct (d !! "Body") as [[| | | | |?|b]|]; try done;
    cbn in *; rewrite ?lookup_empty;
    try (destruct (s !! "EmailAddress") as [[| | | | |?|a]|]; try done);
    cbn; rewrite ?lookup_empty;
    repeat (case_match; simplify_eq/=); reflexivity.
Qed.

(** C6 (as amended).  For a raw JSON object whose [Sender], [Sender.EmailAddress]
    and [Body], where present, are objects: with [Id] and [IsRead] present
    the factory returns the Message whose [message_id] and [is_read] are
    those two values and whose other fields are the members read, the empty
    string (the empty sequence for [ToRecipients]) standing in for each one
    that is missing; without [Id], and with [Id] but without [IsRead], it
    raises [KeyError] on that key. *)
Theorem C6_factory_fields (acct : OutlookAccount) (d : gmap string pyval) :
  nested_members_are_objects d →
  match d !! "Id", d !! "IsRead" with
  | Some uid, Some rd =>
      _json_to_message acct (PyDict d) =
        Ok {| account := acct; message_id := uid;
              body := default (PyStr "") (member2 d "Body" "Content");
              subject := default (PyStr "") (d !! "Subject");
              sender_email := default (PyStr "") (member3 d "Sender" "EmailAddress" "Address");
              sender_name := default (PyStr "") (member3 d "Sender" "EmailAddress" "Name");
              to_recipients := default (PyList []) (d !! "ToRecipients");
              is_read := rd |}
  | None, _ => _json_to_message acct (PyDict d) = Raise (KeyError "Id")
  | Some _, None => _json_to_message acct (PyDict d) = Raise (KeyError "IsRead")
  end.
Proof.
  intros Hwf. rewrite (factory_of_object acct d Hwf).
  rewrite (py_getitem_dict d "Id"), (py_getitem_dict d "IsRead").
  destruct (d !! "Id"), (d !! "IsRead"); reflexivity.
Qed.

Lemma C6_factory_fields_witness :
  nested_members_are_objects sample_json ∧
  _json_to_message sample_account (PyDict sample_json) =
    Ok {| account := sample_account; message_id := PyStr "AAA";
          body := PyStr ""; subject := PyStr ""; sender_email := PyStr "";
          sender_name := PyStr ""; to_recipients := PyList [];
          is_read := PyBool false |}.
Proof.
  assert (Hwf : nested_members_are_objects sample_json) by (vm_compute; tauto).
  split; [exact Hwf|].
  exact (C6_factory_fields sample_account sample_json Hwf).
Defined.

(** C6, as stated, fails: an object that has [Id] and [IsRead] and a
    [Sender] that is null makes the factory raise [AttributeError]. *)
Lemma C6_null_sender_counterexample :
  sample_json_null_sender !! "Id" = Some (PyStr "AAA") ∧
  sample_json_null_sender !! "IsRead" = Some (PyBool false) ∧
  _json_to_message sample_account (PyDict sample_json_null_sender)
  = Raise AttributeError.
Proof. vm_compute. auto. Qed.

(** ** The batch factory *)

Lemma mapM_outcome_Ok {A B : Type} (f : A → outcome B) (l : list A) (k : list B) :
  mapM f l = Ok k ↔ Forall2 (λ x y, f x = Ok y) l k.
Proof.
  revert k. induction l as [|x l IH]; intros k; simpl.
  - split.
    + intros [= <-]. constructor.
    + intros H. inversion H. reflexivity.
  - split.
    + destruct (f x) as [y|e] eqn:Hx; simpl; [|discriminate].
      destruct (mapM f l) as [k'|e] eqn:Hl; simpl; [|discriminate].
      intros [= <-]. constructor; [exact Hx|]. by apply IH.
    + intros H. inversion H as [|? y ? k' Hx Hl]; subst.
      rewrite Hx. simpl. apply IH in Hl. rewrite Hl. reflexivity.
Qed.

Lemma mapM_outcome_total {A B : Type} (f : A → outcome B) (l : list A) :
  (∀ x, x ∈ l → ∃ y, f x = Ok y) → ∃ k, mapM f l = Ok k.
Proof.
  induction l as [|x l IH]; intros H; simpl.
  - by exists [].
  - destruct (H x) as [y Hy]; [by left|].
    destruct IH as [k Hk]; [intros z Hz; apply H; by right|].
    exists (y :: k). by rewrite Hy; simpl; rewrite Hk.
Qed.

Lemma batch_of_array (acct : OutlookAccount) (d : gmap string pyval)
    (entries : list pyval) :
  d !! "value" = Some (PyList entries) →
  _json_to_messages acct (PyDict d) = mapM (_json_to_message acct) entries.
Proof.
  intros H. unfold _json_to_messages. rewrite py_getitem_dict, H. reflexivity.
Qed.

(** The comprehension stops at the first entry on which the factory
    raises, with that exception. *)
Lemma batch_raises_first_failure (acct : OutlookAccount) (d : gmap string pyval)
    (good : list pyval) (bad : pyval) (rest : list pyval) (e : exn) :
  d !! "value" = Some (PyList (good ++ bad :: rest)) →
  (∀ entry, entry ∈ good → ∃ m, _json_to_message acct entry = Ok m) →
  _json_to_message acct bad = Raise e →
  _json_to_messages acct (PyDict d) = Raise e.
Proof.
  intros Hv Hgood Hbad. rewrite (batch_of_array acct d _ Hv). clear Hv.
  induction good as [|x good IH]; simpl.
  - by rewrite Hbad.
  - destruct (Hgood x) as [m Hm]; [by left|]. rewrite Hm. simpl.
    rewrite IH; [reflexivity|]. intros entry Hin. apply Hgood. by right.
Qed.

(** The factory returns on an object that has [Id] and [IsRead] and
    whose [Sender], [Sender.EmailAddress] and [Body], where present, are
    objects. *)
Lemma factory_returns_on_object (acct : OutlookAccount) (o : gmap string pyval) :
  is_Some (o !! "Id") → is_Some (o !! "IsRead") →
  nested_members_are_objects o →
  ∃ m, _json_to_message acct (PyDict o) = Ok m.
Proof.
  intros [uid Hid] [rd Hrd] Hwf. rewrite (factory_of_object acct o Hwf).
  rewrite (py_getitem_dict o "Id"), (py_getitem_dict o "IsRead"), Hid, Hrd.
  eexists. reflexivity.
Qed.

(** C7.  For a batch whose [value] is an array.  A sequence the batch
    factory returns is as long as the array and its i-th element is what
    the single-object factory returns on the i-th entry.  The batch
    factory does return one whenever the single-object factory returns on
    every entry, which it does when every entry is an object that has
    [Id] and [IsRead] and whose [Sender], [Sender.EmailAddress] and
    [Body], where present, are objects.  When the single-object factory
    raises on an entry and returns on those before it, the batch factory
    raises what it raised and returns no sequence. *)
Theorem C7_batch_factory (acct : OutlookAccount) (d : gmap string pyval)
    (entries : list pyval) :
  d !! "value" = Some (PyList entries) →
  (∀ ms, _json_to_messages acct (PyDict d) = Ok ms →
     length ms = length entries ∧
     ∀ i entry, entries !! i = Some entry →
       ∃ m, ms !! i = Some m ∧ _json_to_message acct entry = Ok m)
  ∧ ((∀ entry, entry ∈ entries → ∃ m, _json_to_message acct entry = Ok m) →
     ∃ ms, _json_to_messages acct (PyDict d) = Ok ms)
  ∧ ((∀ entry, entry ∈ entries →
        ∃ o, entry = PyDict o ∧ is_Some (o !! "Id") ∧ is_Some (o !! "IsRead")
             ∧ nested_members_are_objects o) →
     ∃ ms, _json_to_messages acct (PyDict d) = Ok ms)
  ∧ (∀ good bad rest e,
       entries = good ++ bad :: rest →
       (∀ entry, entry ∈ good → ∃ m, _json_to_message acct entry = Ok m) →
       _json_to_message acct bad = Raise e →
       _json_to_messages acct (PyDict d) = Raise e).
Proof.
  intros Hv. split; [|split; [|split]].
  - rewrite (batch_of_array acct d entries Hv).
    intros ms Hms. apply mapM_outcome_Ok in Hms. split.
    + symmetry. by eapply Forall2_length.
    + intros i entry Hi.
      destruct (Forall2_lookup_l _ _ _ _ _ Hms Hi) as (m & Hm & Hf).
      by exists m.
  - rewrite (batch_of_array acct d entries Hv). apply mapM_outcome_total.
  - rewrite (batch_of_array acct d entries Hv). intros Hobj.
    apply mapM_outcome_total. intros entry Hin.
    destruct (Hobj entry Hin) as (o & -> & Hid & Hrd & Hwf).
    by apply factory_returns_on_object.
  - intros good bad rest e -> Hgood Hbad.
    by apply (batch_raises_first_failure acct d good bad rest e).
Qed.

Lemma C7_batch_factory_witness :
  let entries := [PyDict sample_json; PyDict (<["Subject" := PyStr "Hi"]> sample_json)] in
  let d : gmap string pyval := {[ "value" := PyList entries ]} in
  d !! "value" = Some (PyList entries)
  ∧ (∀ entry, entry ∈ entries →
       ∃ o, entry = PyDict o ∧ is_Some (o !! "Id") ∧ is_Some (o !! "IsRead")
            ∧ nested_members_are_objects o)
  ∧ ∃ ms, _json_to_messages sample_account (PyDict d) = Ok ms ∧ length ms = 2%nat.
Proof.
  intros entries d.
  assert (Hv : d !! "value" = Some (PyList entries)) by (vm_compute; reflexivity).
  assert (Hobj : ∀ entry, entry ∈ entries →
            ∃ o, entry = PyDict o ∧ is_Some (o !! "Id") ∧ is_Some (o !! "IsRead")
                 ∧ nested_members_are_objects o).
  { intros entry Hin. apply list_elem_of_In in Hin. simpl in Hin.
    destruct Hin as [<-|[<-|[]]]; eexists; (split; [reflexivity|]);
      (split; [by eexists|]); (split; [by eexists|]); vm_compute; tauto. }
  split; [exact Hv|]. split; [exact Hobj|].
  destruct (C7_batch_factory sample_account d _ Hv) as (Hlen & _ & Htot & _).
  destruct (Htot Hobj) as [ms Hms].
  exists ms. split; [exact Hms|]. exact (proj1 (Hlen ms Hms)).
Defined.

(** C7, as stated, fails: a batch whose [value] is an array of two
    objects, both with [Id] and [IsRead], the second with a [Sender] that
    is null.  The batch factory raises [AttributeError] and produces no
    sequence, of length two or any other. *)
Lemma C7_null_sender_entry_counterexample :
  let entries := [PyDict sample_json; PyDict sample_json_null_sender] in
  let batch := _json_to_messages sample_account (PyDict {[ "value" := PyList entries ]}) in
  (∀ entry, entry ∈ entries →
     ∃ o, entry = PyDict o ∧ is_Some (o !! "Id") ∧ is_Some (o !! "IsRead"))
  ∧ batch = Raise AttributeError
  ∧ ¬ ∃ ms, batch = Ok ms ∧ length ms = length entries.
Proof.
  intros entries batch.
  assert (Hb : batch = Raise AttributeError) by (vm_compute; reflexivity).
  split; [|split; [exact Hb|]].
  - intros entry Hin. apply list_elem_of_In in Hin. simpl in Hin.
    destruct Hin as [<-|[<-|[]]]; eexists; (split; [reflexivity|]);
      split; by eexists.
  - intros (ms & Hms & _). rewrite Hb in Hms. discriminate.
Qed.

(** ** The claims about the gateway and the bodies, at concrete inputs *)

(** C1: a 401 whose body is empty.  [delete] sends its request, and what
    leaves the gateway is the decoding error of [r.json()], raised while
    the error record is being put together; neither the record nor the
    [AuthError] follows. *)
Theorem C1_unauthorized_with_empty_body :
  delete transport_401_empty sample_message
  = (Raise JSONDecodeError, sample_message,
     [EvLog Debug;
      EvHttp (request_of HttpDelete sample_message (api_root +:+ "AAA") None)]).
Proof. vm_compute. reflexivity. Qed.

(** The same answer with a JSON body does raise [AuthError]. *)
Example unauthorized_with_json_body :
  result_of (delete (answer 401 "{}" (Ok (PyDict ∅))) sample_message)
  = Raise (AuthError "Access Token Error, Received 401 from Outlook REST Endpoint").
Proof. vm_compute. reflexivity. Qed.

Lemma C2_is_read_setter_witness :
  render_field no_format (message_id sample_message) EmptyString = Ok "AAA"
  ∧ result_of (is_read_setter no_format transport_accepts true sample_message) = Ok tt
  ∧ is_read (self_of (is_read_setter no_format transport_accepts true sample_message))
    = PyBool true
  ∧ (∃ e, result_of (is_read_setter no_format transport_401_empty true sample_message)
          = Raise e)
  ∧ self_of (is_read_setter no_format transport_401_empty true sample_message)
    = sample_message.
Proof.
  split; [reflexivity|].
  destruct (C2_is_read_setter no_format transport_accepts sample_message true)
    as (_ & _ & Hpatch & _).
  destruct (Hpatch "AAA" eq_refl) as (_ & Hok & _).
  destruct (C2_is_read_setter no_format transport_401_empty sample_message true)
    as (_ & _ & Hpatch' & _).
  destruct (Hpatch' "AAA" eq_refl) as (_ & _ & Hfail & _).
  assert (H401 : (status_code {| status_code := 401; content := EmptyString;
                                 json := Raise JSONDecodeError |} > 299))
    by (simpl; lia).
  assert (H202 : (status_code {| status_code := 202; content := EmptyString;
                                 json := Raise JSONDecodeError |} ≤ 299))
    by (simpl; lia).
  split; [exact (proj1 (Hok _ eq_refl H202))|].
  split; [exact (proj2 (Hok _ eq_refl H202))|].
  split; [exact (proj1 (Hfail _ eq_refl H401))|exact (proj2 (Hfail _ eq_refl H401))].
Defined.

(** C3.  [forward_message] without recipients.  With recipients [None]
    it raises [MiscError] at once, whatever the serialiser is: nothing is
    sent, nothing is logged, the serialiser is not consulted.  With the
    empty string or the empty sequence it consults the serialiser first,
    and a serialiser that refuses them with a [MiscError], as the one of
    the specification does, makes it raise that [MiscError]: nothing is
    sent and nothing is logged. *)
Theorem C3_forward_without_recipients
    (builtin_format : pyval → string → outcome string)
    (transport : Request → outcome Response)
    (forward_comment : option string) (self : Message) :
  (∀ serialiser,
     forward_message builtin_format serialiser transport PyNone forward_comment self
     = (Raise (MiscError "To Recipients is not defined. Can not forward message."),
        self, []))
  ∧ (∀ serialiser recipients msg,
       recipients = PyStr EmptyString ∨ recipients = PyList [] →
       serialiser recipients "to" true = Raise (MiscError msg) →
       forward_message builtin_format serialiser transport recipients
         forward_comment self
       = (Raise (MiscError msg), self, []))
  ∧ (∀ recipients,
       recipients = PyStr EmptyString ∨ recipients = PyList [] →
       forward_message builtin_format jsonify_recipients_spec transport recipients
         forward_comment self
       = (Raise (MiscError "No recipients given."), self, [])).
Proof.
  split; [reflexivity|].
  assert (Hgen : ∀ serialiser recipients msg,
            recipients = PyStr EmptyString ∨ recipients = PyList [] →
            serialiser recipients "to" true = Raise (MiscError msg) →
            forward_message builtin_format serialiser transport recipients
              forward_comment self
            = (Raise (MiscError msg), self, [])).
  { intros serialiser recipients msg Hempty Hs.
    apply (proj1 (proj2 (forward_and_the_serialiser builtin_format serialiser
                           transport forward_comment self))); [|exact Hs].
    by destruct Hempty as [->| ->]. }
  split; [exact Hgen|].
  intros recipients Hempty. apply Hgen; [exact Hempty|].
  by destruct Hempty as [->| ->].
Qed.

Lemma C3_forward_without_recipients_witness :
  (PyStr EmptyString = PyStr EmptyString ∨ PyStr EmptyString = PyList [])
  ∧ (PyList [] = PyStr EmptyString ∨ PyList [] = PyList [])
  ∧ forward_message no_format jsonify_recipients_spec transport_accepts
      (PyStr EmptyString) (Some "FYI") sample_message
    = (Raise (MiscError "No recipients given."), sample_message, [])
  ∧ forward_message no_format jsonify_recipients_spec transport_accepts
      (PyList []) None sample_message
    = (Raise (MiscError "No recipients given."), sample_message, []).
Proof.
  assert (H1 : PyStr EmptyString = PyStr EmptyString ∨ PyStr EmptyString = PyList [])
    by (left; reflexivity).
  assert (H2 : PyList [] = PyStr EmptyString ∨ PyList [] = PyList [])
    by (right; reflexivity).
  split; [exact H1|]. split; [exact H2|]. split.
  - exact (proj2 (proj2 (C3_forward_without_recipients no_format transport_accepts
                           (Some "FYI") sample_message)) _ H1).
  - exact (proj2 (proj2 (C3_forward_without_recipients no_format transport_accepts
                           None sample_message)) _ H2).
Defined.

(** With recipients the serialiser accepts, the forward is posted. *)
Example forward_is_posted :
  requests_of (events_of (forward_message no_format jsonify_recipients_spec
                            transport_accepts (PyStr "bob@example.com")
                            (Some "FYI") sample_message))
  = [request_of HttpPost sample_message (api_root +:+ "AAA" +:+ "/forward")
       (Some (forward_payload (Some "FYI")
                (quoted "ToRecipients" +:+ " : ["
                 +:+ recipient_object "bob@example.com")))].
Proof. vm_compute. reflexivity. Qed.

(** What the gateway would have made of the headers [_copy_to] passes:
    merged over the default ones they give the default ones. *)
Lemma copy_headers_redundant (acct : OutlookAccount) :
  default_headers acct ∪ default_headers acct = default_headers acct.
Proof. apply (idemp_L (∪)). Qed.

(** The sibling of [_copy_to] builds its body by concatenation and does
    post it. *)
Example move_to_inbox_posts :
  requests_of (events_of (move_to_inbox transport_accepts sample_message))
  = [request_of HttpPost sample_message (api_root +:+ "AAA/move")
       (Some ("{ " +:+ quoted "DestinationId" +:+ ": " +:+ quoted "Inbox" +:+ "}"))].
Proof. vm_compute. reflexivity. Qed.

(** C5: a comment that holds double quotes.  [reply] sends it between
    quotes as it is, and the body is not a JSON text. *)
Theorem C5_reply_comment_with_quotes :
  let comment := "<a href=" +:+ quoted "x" +:+ ">y</a>" in
  requests_of (events_of (reply transport_accepts comment sample_message))
  = [request_of HttpPost sample_message (api_root +:+ "AAA/reply")
       (Some ("{ " +:+ quoted "Comment" +:+ ": " +:+ dq +:+ comment +:+ dq +:+ "}"))]
  ∧ json_single_member
      ("{ " +:+ quoted "Comment" +:+ ": " +:+ dq +:+ comment +:+ dq +:+ "}")
    = None.
Proof. split; vm_compute; reflexivity. Qed.

Lemma C9_delete_message_witness :
  message_id sample_message = PyStr "AAA"
  ∧ requests_of (events_of (delete_message transport_accepts sample_message))
    = [request_of HttpDelete sample_message (api_root +:+ "AAA") None].
Proof.
  split; [reflexivity|].
  exact (proj2 (proj2 (C9_delete_message transport_accepts sample_message)
                  "AAA" eq_refl)).
Defined.

Lemma C10_actions_leave_the_message_witness :
  is_setter ActMoveToInbox = false
  ∧ self_of (run_action no_format jsonify_recipients_spec transport_401_empty
               ActMoveToInbox sample_message)
    = sample_message.
Proof.
  split; [reflexivity|].
  exact (C10_actions_leave_the_message no_format jsonify_recipients_spec
           transport_401_empty ActMoveToInbox sample_message eq_refl).
Defined.

(** ** Bodies that are JSON *)

Lemma plain_char_spec (c : ascii) :
  plain_char c = true →
  (c =? dquote)%char = false ∧ (c =? backslash)%char = false.
Proof.
  unfold plain_char. intros H.
  apply andb_prop in H as [H _]. apply andb_prop in H as [H1 H2].
  split; by apply negb_true_iff.
Qed.

Lemma scan_string_plain (s rest : string) :
  all_plain s = true →
  scan_string (s +:+ String dquote rest) = Some (s, rest).
Proof.
  induction s as [|c s IH]; intros Hs.
  - reflexivity.
  - cbn [all_plain] in Hs. apply andb_prop in Hs as [Hc Hs].
    destruct (plain_char_spec c Hc) as [Hq Hb].
    change (String c s +:+ String dquote rest)
      with (String c (s +:+ String dquote rest)).
    cbn [scan_string]. rewrite Hq, Hb, Hc, (IH Hs). reflexivity.
Qed.

Lemma single_member_text (k v : string) :
  all_plain k = true → all_plain v = true →
  json_single_member
    (String "{" (String " " (String dquote (k +:+ String dquote
       (String ":" (String " " (String dquote (v +:+ String dquote "}"))))))))
  = Some (k, JString v).
Proof.
  intros Hk Hv. unfold json_single_member.
  cbn -[scan_string]. rewrite (scan_string_plain k _ Hk).
  cbn -[scan_string]. rewrite (scan_string_plain v _ Hv). reflexivity.
Qed.

(** For a comment of plain characters, with no double quote, no backslash
    and no control character, the body of [reply] and [reply_all] is the
    JSON object with the one member [Comment], of that value; so is the
    body of [move_to] for such a folder identifier. *)
Lemma comment_payload_plain (comment : string) :
  all_plain comment = true →
  encodes_member (comment_payload comment) "Comment" (JString comment).
Proof.
  intros Hc. exact (single_member_text "Comment" comment eq_refl Hc).
Qed.

Lemma destination_payload_plain (destination : string) :
  all_plain destination = true →
  encodes_member (destination_payload destination) "DestinationId"
    (JString destination).
Proof.
  intros Hd. exact (single_member_text "DestinationId" destination eq_refl Hd).
Qed.

(** The example of the specification: [move_to_inbox] posts the object
    with [DestinationId] set to [Inbox] to the [/move] endpoint. *)
Example move_to_inbox_body :
  encodes_member (destination_payload "Inbox") "DestinationId" (JString "Inbox").
Proof. by apply destination_payload_plain. Qed.

(** * Further properties *)

(** ** The factory, in full *)

(** X1.  The single-object factory returns exactly on the objects that
    have [Id] and [IsRead] and whose [Sender], [Sender.EmailAddress] and
    [Body], where present, are objects; and what it returns is then fixed
    by the members it reads. *)
Theorem factory_returns_iff (acct : OutlookAccount) (v : pyval) (m : Message) :
  _json_to_message acct v = Ok m ↔
  ∃ d uid rd,
    v = PyDict d ∧ nested_members_are_objects d
    ∧ d !! "Id" = Some uid ∧ d !! "IsRead" = Some rd
    ∧ m = {| account := acct; message_id := uid;
             body := default (PyStr "") (member2 d "Body" "Content");
             subject := default (PyStr "") (d !! "Subject");
             sender_email := default (PyStr "") (member3 d "Sender" "EmailAddress" "Address");
             sender_name := default (PyStr "") (member3 d "Sender" "EmailAddress" "Name");
             to_recipients := default (PyList []) (d !! "ToRecipients");
             is_read := rd |}.
Proof.
  split.
  - intros H. destruct v as [| | | | | |d]; try discriminate H.
    assert (Hwf : nested_members_are_objects d).
    { revert H.
      unfold _json_to_message, nested_members_are_objects, optional_dict,
        py_getitem, py_get.
      destruct (d !! "Id"); [|discriminate].
      destruct (d !! "Subject");
        (destruct (d !! "Sender") as [[| | | | | |s]|]; cbn; try discriminate;
         destruct (d !! "Body") as [[| | | | | |b]|]; cbn; try discriminate;
         rewrite ?lookup_empty; cbn;
         try (destruct (s !! "EmailAddress") as [[| | | | | |a]|]; cbn;
              try discriminate);
         try done;
         repeat match goal with
                | |- context [?x !! ?k] => destruct (x !! k); cbn
                end;
         first [discriminate | done]). }
    rewrite (factory_of_object acct d Hwf), !py_getitem_dict in H.
    destruct (d !! "Id") as [uid|] eqn:Hid; [|discriminate H].
    destruct (d !! "IsRead") as [rd|] eqn:Hrd; [|discriminate H].
    exists d, uid, rd. by simplify_eq/=.
  - intros (d & uid & rd & -> & Hwf & Hid & Hrd & ->).
    rewrite (factory_of_object acct d Hwf), !py_getitem_dict, Hid, Hrd.
    reflexivity.
Qed.

Lemma nested_members_decided (d : gmap string pyval) :
  nested_members_are_objects d ∨ ¬ nested_members_are_objects d.
Proof.
  unfold nested_members_are_objects, optional_dict.
  destruct (d !! "Body") as [[|?|?|?|?|?|db]|];
    destruct (d !! "Sender") as [[|?|?|?|?|?|ds]|]; cbn; try tauto;
    destruct (ds !! "EmailAddress") as [[|?|?|?|?|?|da]|]; cbn; tauto.
Qed.

(** X2.  The failures of the factory: on a value that is not an object it
    is a [TypeError]; on an object it is [KeyError] on [Id] or on
    [IsRead], the key being missing, or the [AttributeError] of a nested
    member that is not an object.  It raises nothing else. *)
Theorem factory_failures (acct : OutlookAccount) (v : pyval) (e : exn) :
  _json_to_message acct v = Raise e →
  match v with
  | PyDict d =>
      (e = KeyError "Id" ∧ d !! "Id" = None)
      ∨ (e = KeyError "IsRead" ∧ d !! "IsRead" = None
         ∧ nested_members_are_objects d)
      ∨ (e = AttributeError ∧ ¬ nested_members_are_objects d)
  | _ => e = TypeError
  end.
Proof.
  destruct v as [| | | | | |d]; try (by intros [= <-]).
  intros H. destruct (d !! "Id") as [uid|] eqn:Hid.
  - destruct (nested_members_decided d) as [Hwf|Hwf].
    + rewrite (factory_of_object acct d Hwf), !py_getitem_dict, Hid in H.
      destruct (d !! "IsRead") as [rd|] eqn:Hrd; [discriminate H|].
      injection H as <-. right. left. done.
    + right. right. split; [|exact Hwf].
      revert H Hwf.
      unfold _json_to_message, nested_members_are_objects, optional_dict,
        py_getitem, py_get.
      rewrite Hid.
      destruct (d !! "Subject");
        (destruct (d !! "Sender") as [[|?|?|?|?|?|ds]|]; cbn; try (by intros [= <-]);
         destruct (d !! "Body") as [[|?|?|?|?|?|db]|]; cbn; try (by intros [= <-]);
         rewrite ?lookup_empty; cbn;
         try (destruct (ds !! "EmailAddress") as [[|?|?|?|?|?|da]|]; cbn;
              try (by intros [= <-]));
         try (intros _ Hwf; exfalso; apply Hwf; done);
         repeat match goal with
                | |- context [?x !! ?k] => destruct (x !! k); cbn
                end;
         first [by intros [= <-] | intros _ Hwf; exfalso; apply Hwf; done]).
  - left. rewrite (factory_requires_Id acct d Hid) in H. by injection H as <-.
Qed.

(** X3.  The factory reads six members and no other: a member under any
    other key changes neither what it returns nor what it raises. *)
Theorem factory_ignores_other_members (acct : OutlookAccount)
    (d : gmap string pyval) (k : string) (x : pyval) :
  k ∉ factory_keys →
  _json_to_message acct (PyDict (<[k := x]> d)) = _json_to_message acct (PyDict d).
Proof.
  intros Hk. unfold factory_keys in Hk.
  assert (Hne : ∀ k', k' ∈ ["Id"; "Subject"; "Sender"; "Body"; "ToRecipients"; "IsRead"] →
                (<[k := x]> d) !! k' = d !! k').
  { intros k' Hin. apply lookup_insert_ne. intros ->. by apply Hk. }
  unfold _json_to_message, py_getitem, py_get.
  rewrite !Hne by (repeat first [by left | right]). reflexivity.
Qed.

Lemma factory_ignores_other_members_witness :
  ("@odata.etag" ∉ factory_keys)
  ∧ _json_to_message sample_account
      (PyDict (<["@odata.etag" := PyStr "W/1"]> sample_json))
    = _json_to_message sample_account (PyDict sample_json).
Proof.
  assert (Hk : "@odata.etag" ∉ factory_keys).
  { unfold factory_keys. intros Hin. apply list_elem_of_In in Hin. simpl in Hin.
    repeat (destruct Hin as [Hin|Hin]; [discriminate Hin|]). exact Hin. }
  split; [exact Hk|].
  exact (factory_ignores_other_members sample_account sample_json _ _ Hk).
Defined.

Lemma factory_returns_iff_witness :
  ∃ m, _json_to_message sample_account (PyDict sample_json) = Ok m
       ∧ message_id m = PyStr "AAA".
Proof.
  eexists. split.
  - apply (proj2 (factory_returns_iff sample_account (PyDict sample_json) _)).
    exists sample_json, (PyStr "AAA"), (PyBool false).
    split; [reflexivity|]. split; [vm_compute; tauto|].
    split; [reflexivity|]. split; reflexivity.
  - reflexivity.
Defined.

Lemma factory_failures_witness :
  _json_to_message sample_account (PyList []) = Raise TypeError
  ∧ TypeError = TypeError.
Proof.
  assert (H : _json_to_message sample_account (PyList []) = Raise TypeError)
    by reflexivity.
  split; [exact H|].
  exact (factory_failures sample_account (PyList []) TypeError H).
Defined.

(** ** Printing a message *)

(** X4.  [repr] of a message the factory built from an object: the
    subject when the object has a string under [Subject], the empty string
    when it has no [Subject], and a [TypeError] when its [Subject] is
    anything else, null included. *)
Theorem repr_of_factory_message (acct : OutlookAccount) (d : gmap string pyval)
    (m : Message) :
  _json_to_message acct (PyDict d) = Ok m →
  __repr__ m =
    match d !! "Subject" with
    | None => Ok EmptyString
    | Some (PyStr s) => Ok s
    | Some _ => Raise TypeError
    end.
Proof.
  intros H. apply factory_returns_iff in H
    as (d' & uid & rd & [= <-] & _ & _ & _ & ->).
  unfold __repr__, py_str_of, __str__. cbn [subject].
  by destruct (d !! "Subject") as [[]|].
Qed.

Lemma repr_of_factory_message_witness :
  ∃ m, _json_to_message sample_account
         (PyDict (<["Subject" := PyNone]> sample_json)) = Ok m
       ∧ __repr__ m = Raise TypeError.
Proof.
  eexists. split; [vm_compute; reflexivity|].
  exact (repr_of_factory_message sample_account
           (<["Subject" := PyNone]> sample_json) _ eq_refl).
Defined.

(** ** The constructor *)

(** The factory hands what it read to the constructor, the read flag under
    the keyword [is_read]. *)
Lemma factory_calls_init (acct : OutlookAccount) (api_json : pyval) :
  _json_to_message acct api_json =
    uid ← py_getitem api_json "Id";
    subject ← py_get api_json "Subject" (PyStr "");
    sender0 ← py_get api_json "Sender" (PyDict ∅);
    sender ← py_get sender0 "EmailAddress" (PyDict ∅);
    sender_email ← py_get sender "Address" (PyStr "");
    sender_name ← py_get sender "Name" (PyStr "");
    body0 ← py_get api_json "Body" (PyDict ∅);
    body ← py_get body0 "Content" (PyStr "");
    to_recipients ← py_get api_json "ToRecipients" (PyList []);
    is_read ← py_getitem api_json "IsRead";
    __init__ acct uid body subject sender_email sender_name to_recipients
      {[ "is_read" := is_read ]}.
Proof. reflexivity. Qed.

Lemma names_parameter_true (kwargs : gmap string pyval) :
  names_parameter kwargs = true ↔
  ∃ k, k ∈ init_parameters ∧ is_Some (kwargs !! k).
Proof.
  unfold names_parameter. rewrite existsb_exists. split.
  - intros (k & Hin & Hk). exists k. split; [by apply list_elem_of_In|].
    by destruct (kwargs !! k).
  - intros (k & Hin & [x Hk]). exists k. split; [by apply list_elem_of_In|].
    by rewrite Hk.
Qed.

Lemma names_parameter_false (kwargs : gmap string pyval) :
  names_parameter kwargs = false ↔
  ∀ k, k ∈ init_parameters → kwargs !! k = None.
Proof.
  rewrite <- not_true_iff_false, names_parameter_true. split.
  - intros Hno k Hin. destruct (kwargs !! k) eqn:Hk; [|done].
    destruct Hno. exists k. by rewrite Hk.
  - intros Hall (k & Hin & [x Hk]). by rewrite (Hall k Hin) in Hk.
Qed.

(** X5.  The constructor, called with its seven positional arguments and
    some keywords.  It raises [TypeError] exactly when a keyword names one
    of its positional parameters; otherwise it raises exactly when the
    keyword [is_read] is missing, with [KeyError] on that name.  A keyword
    that is neither [is_read] nor the name of a positional parameter is
    accepted and has no effect. *)
Theorem init_keywords (acct : OutlookAccount)
    (uid b s se sn tr : pyval) (kwargs : gmap string pyval) :
  (∀ e, __init__ acct uid b s se sn tr kwargs = Raise e ↔
        (e = TypeError ∧ ∃ k, k ∈ init_parameters ∧ is_Some (kwargs !! k))
        ∨ (e = KeyError "is_read" ∧ kwargs !! "is_read" = None
           ∧ ∀ k, k ∈ init_parameters → kwargs !! k = None))
  ∧ (∀ flag, kwargs !! "is_read" = Some flag →
       (∀ k, k ∈ init_parameters → kwargs !! k = None) →
       __init__ acct uid b s se sn tr kwargs
       = Ok {| account := acct; message_id := uid; body := b; subject := s;
               sender_email := se; sender_name := sn; to_recipients := tr;
               is_read := flag |})
  ∧ (∀ k x, k ≠ "is_read" → k ∉ init_parameters →
       __init__ acct uid b s se sn tr (<[k := x]> kwargs)
       = __init__ acct uid b s se sn tr kwargs).
Proof.
  split; [|split].
  - intros e. unfold __init__, py_getitem.
    destruct (names_parameter kwargs) eqn:Hn.
    + apply names_parameter_true in Hn. split.
      * intros [= <-]. by left.
      * intros [[-> _]|(_ & _ & Hall)]; [done|].
        destruct Hn as (k & Hin & [x Hk]). by rewrite (Hall k Hin) in Hk.
    + pose proof (proj1 (names_parameter_false kwargs) Hn) as Hall.
      destruct (kwargs !! "is_read") eqn:Hr; cbn; split.
      * discriminate.
      * intros [[_ (k & Hin & [x Hk])]|(_ & ? & _)]; [|done].
        by rewrite (Hall k Hin) in Hk.
      * intros [= <-]. by right.
      * intros [[_ (k & Hin & [x Hk])]|(-> & _)]; [|done].
        by rewrite (Hall k Hin) in Hk.
  - intros flag Hr Hall. unfold __init__, py_getitem.
    rewrite (proj2 (names_parameter_false kwargs) Hall). cbn. by rewrite Hr.
  - intros k x Hk Hpar. unfold __init__, py_getitem.
    assert (Hsame : names_parameter (<[k := x]> kwargs) = names_parameter kwargs).
    { apply Bool.eq_true_iff_eq. rewrite !names_parameter_true.
      split; intros (p & Hin & Hs); exists p; (split; [done|]).
      - rewrite lookup_insert_ne in Hs; [done|]. by intros ->.
      - rewrite lookup_insert_ne; [done|]. by intros ->. }
    rewrite Hsame. cbn. by rewrite lookup_insert_ne.
Qed.

Lemma init_keywords_witness :
  ("colour" ≠ "is_read" ∧ "colour" ∉ init_parameters)
  ∧ __init__ sample_account (PyStr "AAA") (PyStr "") (PyStr "") (PyStr "")
      (PyStr "") (PyList []) {[ "colour" := PyStr "red" ]}
    = Raise (KeyError "is_read")
  ∧ __init__ sample_account (PyStr "AAA") (PyStr "") (PyStr "") (PyStr "")
      (PyStr "") (PyList []) {[ "subject" := PyStr "x" ]}
    = Raise TypeError
  ∧ __init__ sample_account (PyStr "AAA") (PyStr "") (PyStr "") (PyStr "")
      (PyStr "") (PyList []) {[ "is_read" := PyBool true ]}
    = Ok {| account := sample_account; message_id := PyStr "AAA";
            body := PyStr ""; subject := PyStr ""; sender_email := PyStr "";
            sender_name := PyStr ""; to_recipients := PyList [];
            is_read := PyBool true |}.
Proof.
  assert (Hk : "colour" ≠ "is_read") by discriminate.
  assert (Hp : "colour" ∉ init_parameters).
  { intros Hin. apply list_elem_of_In in Hin. simpl in Hin.
    intuition discriminate. }
  split; [exact (conj Hk Hp)|].
  destruct (init_keywords sample_account (PyStr "AAA") (PyStr "") (PyStr "")
              (PyStr "") (PyStr "") (PyList []) ∅) as (Hraise & _ & Hignore).
  destruct (init_keywords sample_account (PyStr "AAA") (PyStr "") (PyStr "")
              (PyStr "") (PyStr "") (PyList []) {[ "subject" := PyStr "x" ]})
    as (Htype & _).
  destruct (init_keywords sample_account (PyStr "AAA") (PyStr "") (PyStr "")
              (PyStr "") (PyStr "") (PyList []) {[ "is_read" := PyBool true ]})
    as (_ & Hok & _).
  split; [|split].
  - rewrite <- insert_empty. rewrite (Hignore "colour" (PyStr "red") Hk Hp).
    apply Hraise. right. split; [reflexivity|]. split; reflexivity.
  - apply Htype. left. split; [reflexivity|].
    exists "subject". split; [|by eexists].
    apply list_elem_of_In. simpl. tauto.
  - apply Hok; [reflexivity|].
    intros k Hin. apply lookup_singleton_ne.
    intros <-. apply list_elem_of_In in Hin. simpl in Hin.
    intuition discriminate.
Defined.

(** ** The batch factory, at its edges *)

Lemma factory_rejects_strings (acct : OutlookAccount) (s : string) :
  _json_to_message acct (PyStr s) = Raise TypeError.
Proof. reflexivity. Qed.

Lemma mapM_outcome_first (acct : OutlookAccount) (x : pyval) (l : list pyval) :
  _json_to_message acct x = Raise TypeError →
  mapM (_json_to_message acct) (x :: l) = Raise TypeError.
Proof. intros H. simpl. by rewrite H. Qed.

(** X6.  A batch whose [value] is not an array.  Null, a boolean and a
    number cannot be iterated: [TypeError].  A string and an object are
    iterated, over characters and over keys, and the factory raises
    [TypeError] on the first of them; only when they are empty does the
    batch factory return, the empty sequence. *)
Theorem batch_of_non_array (acct : OutlookAccount) (d : gmap string pyval)
    (value : pyval) :
  d !! "value" = Some value →
  (∀ l, value ≠ PyList l) →
  _json_to_messages acct (PyDict d) =
    match value with
    | PyStr EmptyString => Ok []
    | PyDict members => if decide (members = ∅) then Ok [] else Raise TypeError
    | _ => Raise TypeError
    end.
Proof.
  intros Hv Hl. unfold _json_to_messages. rewrite py_getitem_dict, Hv.
  cbn [from_option mbind outcome_bind].
  destruct value as [| | | |s|l|members]; try reflexivity.
  - by destruct s.
  - by destruct (Hl l).
  - cbn [py_iter mbind outcome_bind]. case_decide as He.
    + subst. by rewrite map_to_list_empty.
    + destruct (map_to_list members) as [|[k x] rest] eqn:Hm.
      * by apply map_to_list_empty_iff in Hm.
      * cbn [fmap list_fmap fst]. by apply mapM_outcome_first.
Qed.

Lemma batch_of_non_array_witness :
  let d : gmap string pyval := {[ "value" := PyDict sample_json ]} in
  d !! "value" = Some (PyDict sample_json)
  ∧ _json_to_messages sample_account (PyDict d) = Raise TypeError.
Proof.
  intros d.
  assert (Hv : d !! "value" = Some (PyDict sample_json)) by reflexivity.
  split; [exact Hv|].
  rewrite (batch_of_non_array sample_account d (PyDict sample_json) Hv)
    by discriminate.
  rewrite decide_False; [reflexivity|].
  intros He. assert (H : sample_json !! "Id" = None) by (rewrite He; apply lookup_empty).
  discriminate H.
Defined.

(** X7.  The batch factory is all or nothing: when the single-object
    factory raises on an entry and has returned on every entry before it,
    the batch factory raises that exception and returns no message. *)
Theorem batch_stops_at_first_failure (acct : OutlookAccount)
    (d : gmap string pyval) (good : list pyval) (bad : pyval)
    (rest : list pyval) (e : exn) :
  d !! "value" = Some (PyList (good ++ bad :: rest)) →
  (∀ entry, entry ∈ good → ∃ m, _json_to_message acct entry = Ok m) →
  _json_to_message acct bad = Raise e →
  _json_to_messages acct (PyDict d) = Raise e.
Proof. apply batch_raises_first_failure. Qed.

Lemma batch_stops_at_first_failure_witness :
  let d : gmap string pyval :=
    {[ "value" := PyList [PyDict sample_json; PyDict ∅; PyDict sample_json] ]} in
  _json_to_messages sample_account (PyDict d) = Raise (KeyError "Id").
Proof.
  intros d.
  apply (batch_stops_at_first_failure sample_account d [PyDict sample_json]
           (PyDict ∅) [PyDict sample_json]).
  - reflexivity.
  - intros entry Hin. apply list_elem_of_In in Hin. simpl in Hin.
    destruct Hin as [<-|[]]. eexists. vm_compute. reflexivity.
  - reflexivity.
Defined.

Lemma factory_account (acct : OutlookAccount) (v : pyval) (m : Message) :
  _json_to_message acct v = Ok m → account m = acct.
Proof.
  intros H. apply factory_returns_iff in H as (d & uid & rd & _ & _ & _ & _ & ->).
  reflexivity.
Qed.

(** X8.  Every message of a batch carries the account the batch factory
    was given, and the identifiers of the messages are the [Id]s of the
    entries, in order. *)
Theorem batch_accounts_and_ids (acct : OutlookAccount) (json_value : pyval)
    (ms : list Message) :
  _json_to_messages acct json_value = Ok ms →
  Forall (λ m, account m = acct) ms
  ∧ ∃ entries, py_getitem json_value "value" ≫= py_iter = Ok entries
      ∧ Forall2 (λ entry m, py_getitem entry "Id" = Ok (message_id m)) entries ms.
Proof.
  unfold _json_to_messages. intros H.
  destruct (py_getitem json_value "value") as [value|]; [|discriminate H].
  cbn [mbind outcome_bind] in H |- *.
  destruct (py_iter value) as [entries|]; [|discriminate H].
  cbn [mbind outcome_bind] in H. apply mapM_outcome_Ok in H. split.
  - induction H as [|entry m entries ms Hm _ IH]; constructor; [|exact IH].
    by apply (factory_account acct entry).
  - exists entries. split; [reflexivity|].
    induction H as [|entry m entries ms Hm _ IH]; constructor; [|exact IH].
    apply factory_returns_iff in Hm as (d & uid & rd & -> & _ & Hid & _ & ->).
    cbn. by rewrite Hid.
Qed.

Lemma batch_accounts_and_ids_witness :
  let v := PyDict {[ "value" := PyList [PyDict sample_json] ]} in
  ∃ ms, _json_to_messages sample_account v = Ok ms
        ∧ Forall (λ m, account m = sample_account) ms.
Proof.
  intros v. eexists. split; [vm_compute; reflexivity|].
  exact (proj1 (batch_accounts_and_ids sample_account v _ eq_refl)).
Defined.

(** ** Bodies built by concatenation *)

Lemma length_append (s1 s2 : string) :
  String.length (s1 +:+ s2) = (String.length s1 + String.length s2)%nat.
Proof.
  induction s1 as [|c s1 IH]; [reflexivity|].
  change (S (String.length (s1 +:+ s2)) = S (String.length s1 + String.length s2)).
  by rewrite IH.
Qed.

(** What [scan_string] read was either written as it is, all of plain
    characters, or took more characters to write than it has. *)
Lemma scan_string_inv (n : nat) :
  ∀ s t r, (String.length s ≤ n)%nat →
    scan_string s = Some (t, r) →
    (s = t +:+ String dquote r ∧ all_plain t = true)
    ∨ (String.length t + String.length r + 2 ≤ String.length s)%nat.
Proof.
  induction n as [|n IH]; intros s t r Hn Hs.
  - destruct s; [by cbn in Hs|]. cbn in Hn. lia.
  - destruct s as [|c s]; [by cbn in Hs|]. cbn [scan_string] in Hs.
    cbn [String.length] in Hn.
    destruct (c =? dquote)%char eqn:Hq.
    { apply Ascii.eqb_eq in Hq as ->. injection Hs as <- <-. by left. }
    destruct (c =? backslash)%char eqn:Hb.
    { destruct s as [|e s]; [discriminate Hs|].
      destruct (unescape e) as [x|]; [|discriminate Hs]. cbn in Hs.
      destruct (scan_string s) as [[t' r']|] eqn:Hrest; [|discriminate Hs].
      cbn in Hs. injection Hs as <- <-. right.
      cbn [String.length] in Hn |- *.
      destruct (IH s t' r' ltac:(lia) Hrest) as [[-> _]|Hlen].
      - rewrite length_append. cbn [String.length]. lia.
      - lia. }
    destruct (plain_char c) eqn:Hc; [|discriminate Hs].
    destruct (scan_string s) as [[t' r']|] eqn:Hrest; [|discriminate Hs].
    cbn in Hs. injection Hs as <- <-.
    destruct (IH s t' r' ltac:(lia) Hrest) as [[-> Hp]|Hlen].
    + left. split; [reflexivity|]. cbn [all_plain]. by rewrite Hc, Hp.
    + right. cbn [String.length]. lia.
Qed.

Lemma single_member_text_inv (k v : string) :
  all_plain k = true →
  json_single_member
    (String "{" (String " " (String dquote (k +:+ String dquote
       (String ":" (String " " (String dquote (v +:+ String dquote "}"))))))))
  = Some (k, JString v) →
  all_plain v = true.
Proof.
  intros Hk. unfold json_single_member.
  cbn -[scan_string]. rewrite (scan_string_plain k _ Hk).
  cbn -[scan_string].
  destruct (scan_string (v +:+ String dquote "}")) as [[t r]|] eqn:Hv;
    [|discriminate].
  cbn -[scan_string]. intros H0.
  assert (H : expect "}" (skip_ws r)
              ≫= (λ s, match skip_ws s with
                       | EmptyString => Some (k, JString t)
                       | _ => None
                       end) = Some (k, JString v)) by exact H0.
  clear H0.
  destruct (expect "}" (skip_ws r)) as [s'|] eqn:He; [|discriminate H].
  cbn in H. destruct (skip_ws s'); [|discriminate H]. injection H as ->.
  destruct (scan_string_inv _ _ _ _ (le_n _) Hv) as [[_ Hp]|Hlen]; [exact Hp|].
  rewrite length_append in Hlen. cbn [String.length] in Hlen.
  destruct r; [by cbn in He|cbn [String.length] in Hlen; lia].
Qed.

Lemma comment_payload_iff (comment : string) :
  encodes_member (comment_payload comment) "Comment" (JString comment)
  ↔ all_plain comment = true.
Proof.
  split; [|apply comment_payload_plain].
  exact (single_member_text_inv "Comment" comment eq_refl).
Qed.

Lemma destination_payload_iff (destination : string) :
  encodes_member (destination_payload destination) "DestinationId"
    (JString destination)
  ↔ all_plain destination = true.
Proof.
  split; [|apply destination_payload_plain].
  exact (single_member_text_inv "DestinationId" destination eq_refl).
Qed.

(** X18.  The body [reply] and [reply_all] send is the JSON object with the
    one member [Comment], of the value of the comment, exactly when the
    comment has no double quote, no backslash and no control character:
    the comment is pasted between quotes, not encoded. *)
Theorem reply_body_is_json_iff
    (builtin_format : pyval → string → outcome string)
    (transport : Request → outcome Response)
    (reply_comment : string) (self : Message) (mid : string) :
  message_id self = PyStr mid →
  ∃ body,
    requests_of (events_of (reply transport reply_comment self))
    = [request_of HttpPost self (api_root +:+ mid +:+ "/reply") (Some body)]
    ∧ requests_of (events_of (reply_all builtin_format transport reply_comment self))
      = [request_of HttpPost self (api_root +:+ mid +:+ "/replyall") (Some body)]
    ∧ (encodes_member body "Comment" (JString reply_comment)
       ↔ all_plain reply_comment = true).
Proof.
  intros Hid. exists (comment_payload reply_comment).
  rewrite reply_run, reply_all_run, Hid. cbn [render_field].
  rewrite !after_response_requests.
  split; [reflexivity|]. split; [reflexivity|]. apply comment_payload_iff.
Qed.

(** X19.  [move_to] and its wrappers, on a message whose identifier is a
    string, post to the [/move] endpoint of the message; the body is the
    JSON object with the one member [DestinationId], of the value of the
    folder identifier, exactly when that identifier has no double quote,
    no backslash and no control character, as the three folder names of
    the wrappers have. *)
Theorem move_body_is_json_iff (transport : Request → outcome Response)
    (folder_id : string) (self : Message) (mid : string) :
  message_id self = PyStr mid →
  (∃ body,
     requests_of (events_of (move_to transport folder_id self))
     = [request_of HttpPost self (api_root +:+ mid +:+ "/move") (Some body)]
     ∧ (encodes_member body "DestinationId" (JString folder_id)
        ↔ all_plain folder_id = true))
  ∧ (∀ name wrapper,
       (name, wrapper) ∈ [("Inbox", move_to_inbox transport);
                          ("DeletedItems", move_to_deleted transport);
                          ("Drafts", move_to_drafts transport)] →
       ∃ body,
         requests_of (events_of (wrapper self))
         = [request_of HttpPost self (api_root +:+ mid +:+ "/move") (Some body)]
         ∧ encodes_member body "DestinationId" (JString name)).
Proof.
  intros Hid. split.
  - exists (destination_payload folder_id). unfold move_to.
    rewrite move_run, Hid, after_response_requests.
    split; [reflexivity|]. apply destination_payload_iff.
  - intros name wrapper Hin. apply list_elem_of_In in Hin. simpl in Hin.
    destruct Hin as [[= <- <-]|[[= <- <-]|[[= <- <-]|[]]]];
      eexists; unfold move_to_inbox, move_to_deleted, move_to_drafts;
      rewrite move_run, Hid, after_response_requests;
      (split; [reflexivity|]); by apply destination_payload_plain.
Qed.

(** ** The further properties, at concrete inputs *)

Lemma action_returns_iff_witness :
  result_of (run_action no_format jsonify_recipients_spec transport_accepts
               (ActReply "Thanks") sample_message) = Ok tt.
Proof.
  apply (proj2 (action_returns_iff no_format jsonify_recipients_spec
                  transport_accepts (ActReply "Thanks") sample_message)).
  eexists _, _. split; [vm_compute; reflexivity|]. split; [reflexivity|].
  simpl. lia.
Defined.

Lemma action_requests_witness :
  let req := request_of HttpPost sample_message (api_root +:+ "AAA/move")
               (Some (destination_payload "Inbox")) in
  req ∈ requests_of (events_of (run_action no_format jsonify_recipients_spec
                                  transport_accepts ActMoveToInbox sample_message))
  ∧ req_headers req !! "Authorization" = Some "Bearer token".
Proof.
  intros req.
  assert (Hin : req ∈ requests_of (events_of
                  (run_action no_format jsonify_recipients_spec
                     transport_accepts ActMoveToInbox sample_message)))
    by (vm_compute; left).
  split; [exact Hin|].
  exact (proj1 (proj2 (action_requests no_format jsonify_recipients_spec
                         transport_accepts ActMoveToInbox sample_message)
                  req Hin)).
Defined.

Lemma action_raise_keeps_message_witness :
  result_of (run_action no_format jsonify_recipients_spec transport_401_empty
               (ActSetIsRead true) sample_message) = Raise JSONDecodeError
  ∧ self_of (run_action no_format jsonify_recipients_spec transport_401_empty
               (ActSetIsRead true) sample_message) = sample_message.
Proof.
  assert (H : result_of (run_action no_format jsonify_recipients_spec
                           transport_401_empty (ActSetIsRead true) sample_message)
              = Raise JSONDecodeError) by (vm_compute; reflexivity).
  split; [exact H|].
  exact (action_raise_keeps_message no_format jsonify_recipients_spec
           transport_401_empty (ActSetIsRead true) sample_message _ H).
Defined.

Lemma transport_failure_passes_through_witness :
  let req := request_of HttpDelete sample_message (api_root +:+ "AAA") None in
  transport_down req = Raise RequestException
  ∧ result_of (run_action no_format jsonify_recipients_spec transport_down
                 ActDelete sample_message) = Raise RequestException.
Proof.
  intros req. split; [reflexivity|].
  refine (proj1 (transport_failure_passes_through no_format
                   jsonify_recipients_spec transport_down ActDelete
                   sample_message req RequestException _ eq_refl)).
  vm_compute. left.
Defined.

Lemma gateway_request_witness :
  ("delete" ∈ ["post"; "delete"; "patch"])
  ∧ ∃ req,
      requests_of (events_of (_make_api_call transport_accepts "delete"
                                (api_root +:+ "AAA")
                                (Some {[ "Authorization" := "Bearer other" ]})
                                (Some "ignored") sample_message)) = [req]
      ∧ req_data req = None
      ∧ req_headers req !! "Authorization" = Some "Bearer other"
      ∧ req_headers req !! "Content-Type" = Some "application/json".
Proof.
  assert (Hin : "delete" ∈ ["post"; "delete"; "patch"]) by (right; left).
  split; [exact Hin|].
  destruct (gateway_request transport_accepts "delete" (api_root +:+ "AAA")
              (Some {[ "Authorization" := "Bearer other" ]}) (Some "ignored")
              sample_message Hin) as (req & Hreq & _ & Hdata & Hk).
  exists req. split; [exact Hreq|]. split; [exact Hdata|].
  split; [exact (Hk "Authorization")|exact (Hk "Content-Type")].
Defined.

Lemma string_identifier_needed_witness :
  ¬ is_str (message_id sample_message_numeric_id)
  ∧ delete transport_accepts sample_message_numeric_id
    = (Raise TypeError, sample_message_numeric_id, [])
  ∧ delete_message transport_accepts sample_message_numeric_id
    = (Raise TypeError, sample_message_numeric_id,
       [EvWarn "DeprecationWarning"
          "delete_message() is deprecated and will be removed in v1.0. Use delete() instead."]).
Proof.
  assert (Hid : ¬ is_str (message_id sample_message_numeric_id))
    by (intros H; exact H).
  split; [exact Hid|].
  destruct (string_identifier_needed transport_accepts
              sample_message_numeric_id "x" Hid) as (_ & Hdel & _ & Hold & _).
  split; [exact Hdel|exact Hold].
Defined.

Lemma setter_twice_witness :
  message_id sample_message = PyStr "AAA"
  ∧ (∀ req, ∃ r, transport_accepts req = Ok r ∧ status_code r ≤ 299)
  ∧ is_read (self_of (and_then (is_read_setter no_format transport_accepts true)
                        (is_read_setter no_format transport_accepts false)
                        sample_message)) = PyBool false.
Proof.
  assert (Hacc : ∀ req, ∃ r, transport_accepts req = Ok r ∧ status_code r ≤ 299).
  { intros req. eexists. split; [reflexivity|]. simpl. lia. }
  split; [reflexivity|]. split; [exact Hacc|].
  exact (proj1 (proj2 (setter_twice no_format transport_accepts true false
                         sample_message "AAA" eq_refl Hacc))).
Defined.

Lemma forward_needs_serialised_text_witness :
  PyStr "bob@example.com" ≠ PyNone
  ∧ serialiser_returns_none (PyStr "bob@example.com") "to" true = Ok PyNone
  ∧ ¬ is_str PyNone
  ∧ forward_message no_format serialiser_returns_none transport_accepts
      (PyStr "bob@example.com") None sample_message
    = (Raise TypeError, sample_message, []).
Proof.
  assert (Hne : PyStr "bob@example.com" ≠ PyNone) by discriminate.
  assert (Hv : ¬ is_str PyNone) by (intros H; exact H).
  split; [exact Hne|]. split; [reflexivity|]. split; [exact Hv|].
  exact (forward_needs_serialised_text no_format serialiser_returns_none
           transport_accepts (PyStr "bob@example.com") None sample_message
           PyNone Hne eq_refl Hv).
Defined.

Lemma reply_body_is_json_iff_witness :
  message_id sample_message = PyStr "AAA"
  ∧ ∃ body,
      requests_of (events_of (reply transport_accepts "Thanks" sample_message))
      = [request_of HttpPost sample_message (api_root +:+ "AAA" +:+ "/reply")
           (Some body)]
      ∧ encodes_member body "Comment" (JString "Thanks").
Proof.
  split; [reflexivity|].
  destruct (reply_body_is_json_iff no_format transport_accepts "Thanks"
              sample_message "AAA" eq_refl) as (body & Hreply & _ & Hjson).
  exists body. split; [exact Hreply|]. apply Hjson. reflexivity.
Defined.

Lemma move_body_is_json_iff_witness :
  message_id sample_message = PyStr "AAA"
  ∧ ∃ body,
      requests_of (events_of (move_to_drafts transport_accepts sample_message))
      = [request_of HttpPost sample_message (api_root +:+ "AAA" +:+ "/move")
           (Some body)]
      ∧ encodes_member body "DestinationId" (JString "Drafts").
Proof.
  split; [reflexivity|].
  destruct (move_body_is_json_iff transport_accepts "x" sample_message "AAA"
              eq_refl) as [_ Hwrappers].
  apply (Hwrappers "Drafts" (move_to_drafts transport_accepts)).
  right. right. left.
Defined.
